(** * The agent proxy of [capstone-agent/functions/main.py]

    A shallow embedding of the Cloud Function [agentProxy] and of its prompt
    formatter [_format_agent_message], with the Python runtime pieces the two
    rely on: [str] methods ([find], [rfind], slicing, [strip]),
    [textwrap.dedent], truthiness, [str()]/[repr()], [json.dumps], the [in]
    operator and subscription.

    Python strings are modelled by [string]; a character is a code point
    below 256.  JSON numbers are modelled by Python [int]s ([Z]); float
    literals are outside the embedding. *)

From Stdlib Require Import ZArith String Ascii List Bool Lia DecimalString.
Import ListNotations.
Open Scope string_scope.
Open Scope Z_scope.

(** ** Python string primitives *)

Module PyStr.

Definition nl : ascii := "010"%char.
Definition tab : ascii := "009"%char.
Definition dq : ascii := "034"%char.
Definition sq : ascii := "039"%char.
Definition bslash : ascii := "092"%char.

Definition NL : string := String nl "".
Definition DQ : string := String dq "".

Definition len (s : string) : Z := Z.of_nat (String.length s).

(** [s.startswith(p)] *)
Definition startswith (s p : string) : bool := String.prefix p s.

(** First and last position at which [sub] occurs in [s]. *)
Fixpoint find_opt (sub s : string) : option nat :=
  if String.prefix sub s then Some 0%nat
  else match s with
       | EmptyString => None
       | String _ s' => option_map S (find_opt sub s')
       end.

Fixpoint rfind_opt (sub s : string) : option nat :=
  match s with
  | EmptyString => if String.prefix sub s then Some 0%nat else None
  | String _ s' =>
      match rfind_opt sub s' with
      | Some n => Some (S n)
      | None => if String.prefix sub s then Some 0%nat else None
      end
  end.

Definition index_or_minus1 (o : option nat) : Z :=
  match o with Some n => Z.of_nat n | None => -1 end.

(** [s.find(sub)] and [s.rfind(sub)]: an index, or -1. *)
Definition find (s sub : string) : Z := index_or_minus1 (find_opt sub s).
Definition rfind (s sub : string) : Z := index_or_minus1 (rfind_opt sub s).

(** [sub in s] on strings. *)
Definition contains (s sub : string) : bool :=
  match find_opt sub s with Some _ => true | None => false end.

(** [s[start:stop]] for integer bounds, negative ones counted from the end. *)
Definition clamp_index (n i : Z) : Z :=
  if i <? 0 then Z.max (i + n) 0 else Z.min i n.

Definition slice (s : string) (start stop : Z) : string :=
  let a := clamp_index (len s) start in
  let b := clamp_index (len s) stop in
  if a <? b then String.substring (Z.to_nat a) (Z.to_nat (b - a)) s else "".

(** [s.split('\n')] and ['\n'.join(lines)]. *)
Fixpoint split_nl (s : string) : list string :=
  match s with
  | EmptyString => [""]
  | String c s' =>
      if Ascii.eqb c nl then "" :: split_nl s'
      else match split_nl s' with
           | l :: ls => String c l :: ls
           | [] => [String c ""]
           end
  end.

Definition join_nl (lines : list string) : string := String.concat NL lines.

(** [str.isspace] on one character (code points below 256). *)
Definition is_space (c : ascii) : bool :=
  let n := Z.of_nat (nat_of_ascii c) in
  ((9 <=? n) && (n <=? 13)) || ((28 <=? n) && (n <=? 32))
  || (n =? 133) || (n =? 160).

Fixpoint lstrip (s : string) : string :=
  match s with
  | EmptyString => ""
  | String c s' => if is_space c then lstrip s' else s
  end.

Fixpoint rstrip (s : string) : string :=
  match s with
  | EmptyString => ""
  | String c s' =>
      match rstrip s' with
      | EmptyString => if is_space c then "" else String c ""
      | r => String c r
      end
  end.

(** [s.strip()] *)
Definition strip (s : string) : string := rstrip (lstrip s).

Fixpoint has_newline (s : string) : bool :=
  match s with
  | EmptyString => false
  | String c s' => Ascii.eqb c nl || has_newline s'
  end.

(** [sub] occurs in [s] as a contiguous piece. *)
Definition occurs_in (sub s : string) : Prop :=
  exists a b, s = a ++ sub ++ b.

End PyStr.

(** ** [textwrap.dedent] (CPython's regular-expression implementation) *)

Module Textwrap.
Import PyStr.

Definition is_blank (c : ascii) : bool :=
  Ascii.eqb c " "%char || Ascii.eqb c tab.

Fixpoint all_blank (s : string) : bool :=
  match s with
  | EmptyString => true
  | String c s' => is_blank c && all_blank s'
  end.

(** [_whitespace_only_re.sub('', text)], line by line: a line made of
    blanks and tabs only becomes empty. *)
Definition whitespace_only_sub (line : string) : string :=
  if all_blank line then "" else line.

Fixpoint leading_whitespace (line : string) : string :=
  match line with
  | EmptyString => ""
  | String c s' => if is_blank c then String c (leading_whitespace s') else ""
  end.

Fixpoint has_text (line : string) : bool :=
  match line with
  | EmptyString => false
  | String c s' => if is_blank c then has_text s' else true
  end.

(** [_leading_whitespace_re.findall(text)]: the indentation of every line
    that has a character other than blank and tab. *)
Definition indents (lines : list string) : list string :=
  map leading_whitespace (filter has_text lines).

(** The loop body's last branch: cut [margin] at the first position where it
    differs from [indent]. *)
Fixpoint cut_at_mismatch (margin indent : string) : string :=
  match margin, indent with
  | String x m', String y i' =>
      if Ascii.eqb x y then String x (cut_at_mismatch m' i') else ""
  | _, _ => margin
  end.

Definition update_margin (margin : option string) (indent : string)
  : option string :=
  match margin with
  | None => Some indent
  | Some m =>
      if startswith indent m then Some m
      else if startswith m indent then Some indent
      else Some (cut_at_mismatch m indent)
  end.

Definition find_margin (lines : list string) : option string :=
  fold_left update_margin (indents lines) None.

(** [re.sub(r'(?m)^' + margin, '', text)], line by line: a line that
    starts with the margin loses it. *)
Fixpoint strip_prefix (p s : string) : option string :=
  match p, s with
  | EmptyString, _ => Some s
  | String a p', String b s' =>
      if Ascii.eqb a b then strip_prefix p' s' else None
  | String _ _, EmptyString => None
  end.

Definition remove_margin (margin line : string) : string :=
  match strip_prefix margin line with
  | Some rest => rest
  | None => line
  end.

Definition dedent_lines (raw : list string) : list string :=
  let lines := map whitespace_only_sub raw in
  match find_margin lines with
  | Some (String c m) => map (remove_margin (String c m)) lines
  | _ => lines
  end.

Definition dedent (text : string) : string :=
  join_nl (dedent_lines (split_nl text)).

End Textwrap.

(** ** Python values, as [json.loads] and [Request.get_json] produce them *)

Module Py.
Import PyStr.

#[warnings="-register-all"] Inductive pyval : Type :=
| PNone
| PBool (b : bool)
| PInt (z : Z)
| PStr (s : string)
| PList (l : list pyval)
| PDict (d : list (string * pyval)).

(** Exceptions: a class and the text [str(e)] gives. *)
Inductive exn_class : Type :=
| TypeError | KeyError | JSONDecodeError | ValueError | RecursionError
| HTTPError | OtherException.

Record exn : Type := mk_exn { exn_cls : exn_class; exn_msg : string }.

Inductive result (A : Type) : Type :=
| Return (a : A)
| Raise (e : exn).
Arguments Return {A} a.
Arguments Raise {A} e.

(** [bool(v)] *)
Definition py_truthy (v : pyval) : bool :=
  match v with
  | PNone => false
  | PBool b => b
  | PInt z => negb (z =? 0)
  | PStr s => negb (String.eqb s "")
  | PList l => match l with [] => false | _ => true end
  | PDict d => match d with [] => false | _ => true end
  end.

Definition is_str (v : pyval) : bool :=
  match v with PStr _ => true | _ => false end.

Definition type_name (v : pyval) : string :=
  match v with
  | PNone => "NoneType" | PBool _ => "bool" | PInt _ => "int"
  | PStr _ => "str" | PList _ => "list" | PDict _ => "dict"
  end.

Definition hex_digit (n : nat) : ascii :=
  match n with
  | 0 => "0" | 1 => "1" | 2 => "2" | 3 => "3" | 4 => "4" | 5 => "5"
  | 6 => "6" | 7 => "7" | 8 => "8" | 9 => "9" | 10 => "a" | 11 => "b"
  | 12 => "c" | 13 => "d" | 14 => "e" | _ => "f"
  end%nat%char.

Definition hex2 (c : ascii) : string :=
  let n := nat_of_ascii c in
  String (hex_digit (n / 16)) (String (hex_digit (n mod 16)) "").

Definition str_of_int (z : Z) : string := NilZero.string_of_int (Z.to_int z).

(** [repr] of a string: the quote is the apostrophe unless the text has an
    apostrophe and no double quote. *)
Definition repr_quote (s : string) : ascii :=
  if contains s (String sq "") && negb (contains s DQ) then dq else sq.

Definition printable_latin1 (n : Z) : bool :=
  (161 <=? n) && negb (n =? 173).

Definition repr_char (quote c : ascii) : string :=
  let n := Z.of_nat (nat_of_ascii c) in
  if Ascii.eqb c quote || Ascii.eqb c bslash then String bslash (String c "")
  else if Ascii.eqb c tab then String bslash "t"
  else if Ascii.eqb c nl then String bslash "n"
  else if n =? 13 then String bslash "r"
  else if (n <? 32) || (n =? 127) then String bslash ("x" ++ hex2 c)
  else if n <? 127 then String c ""
  else if printable_latin1 n then String c ""
  else String bslash ("x" ++ hex2 c).

Fixpoint repr_chars (quote : ascii) (s : string) : string :=
  match s with
  | EmptyString => ""
  | String c s' => repr_char quote c ++ repr_chars quote s'
  end.

Definition repr_str (s : string) : string :=
  let q := repr_quote s in
  String q (repr_chars q s ++ String q "").

Fixpoint py_repr (v : pyval) : string :=
  match v with
  | PNone => "None"
  | PBool b => if b then "True" else "False"
  | PInt z => str_of_int z
  | PStr s => repr_str s
  | PList l => "[" ++ String.concat ", " (map py_repr l) ++ "]"
  | PDict d =>
      "{" ++ String.concat ", "
               (map (fun kv : string * pyval => let (k, x) := kv in
                               repr_str k ++ ": " ++ py_repr x) d) ++ "}"
  end.

(** [str(v)], which is also what an f-string field [{v}] interpolates. *)
Definition py_str (v : pyval) : string :=
  match v with
  | PStr s => s
  | _ => py_repr v
  end.

(** [json.dumps] with its defaults ([ensure_ascii], separators [", "] and
    [": "]). *)
Definition json_escape_char (c : ascii) : string :=
  let n := Z.of_nat (nat_of_ascii c) in
  if Ascii.eqb c bslash then String bslash (String bslash "")
  else if Ascii.eqb c dq then String bslash DQ
  else if n =? 8 then String bslash "b"
  else if n =? 12 then String bslash "f"
  else if Ascii.eqb c nl then String bslash "n"
  else if n =? 13 then String bslash "r"
  else if Ascii.eqb c tab then String bslash "t"
  else if (32 <=? n) && (n <=? 126) then String c ""
  else String bslash ("u00" ++ hex2 c).

Fixpoint json_escape (s : string) : string :=
  match s with
  | EmptyString => ""
  | String c s' => json_escape_char c ++ json_escape s'
  end.

Definition json_string (s : string) : string := DQ ++ json_escape s ++ DQ.

Fixpoint json_dumps (v : pyval) : string :=
  match v with
  | PNone => "null"
  | PBool b => if b then "true" else "false"
  | PInt z => str_of_int z
  | PStr s => json_string s
  | PList l => "[" ++ String.concat ", " (map json_dumps l) ++ "]"
  | PDict d =>
      "{" ++ String.concat ", "
               (map (fun kv : string * pyval => let (k, x) := kv in
                               json_string k ++ ": " ++ json_dumps x) d) ++ "}"
  end.

(** Dictionary lookup on the insertion-ordered entries. *)
Fixpoint dict_get (d : list (string * pyval)) (k : string) : option pyval :=
  match d with
  | [] => None
  | (k', x) :: d' => if String.eqb k' k then Some x else dict_get d' k
  end.

Definition dict_has (d : list (string * pyval)) (k : string) : bool :=
  match dict_get d k with Some _ => true | None => false end.

(** [k in v] for a string [k]: key membership in a dict, element membership
    in a list, substring test in a string, [TypeError] otherwise. *)
Definition py_in (k : string) (v : pyval) : result bool :=
  match v with
  | PDict d => Return (dict_has d k)
  | PList l =>
      Return (existsb (fun x => match x with
                                | PStr s => String.eqb s k
                                | _ => false
                                end) l)
  | PStr s => Return (contains s k)
  | _ => Raise (mk_exn TypeError
                  ("argument of type '" ++ type_name v ++ "' is not iterable"))
  end.

(** [v[k]] for a string [k]. *)
Definition py_getitem (v : pyval) (k : string) : result pyval :=
  match v with
  | PDict d =>
      match dict_get d k with
      | Some x => Return x
      | None => Raise (mk_exn KeyError (repr_str k))
      end
  | PList _ =>
      Raise (mk_exn TypeError "list indices must be integers or slices, not str")
  | PStr _ =>
      Raise (mk_exn TypeError "string indices must be integers, not 'str'")
  | _ => Raise (mk_exn TypeError
                  ("'" ++ type_name v ++ "' object is not subscriptable"))
  end.

End Py.

(** ** The prompt formatter *)

Import PyStr Textwrap Py.

Definition placeholder : string := "No additional constraint.".

(** The lines of the f-string of [_format_agent_message], after
    interpolation and before [textwrap.dedent]: the first one is empty and
    the last one is eight blanks. *)
Definition template_lines (session_id query constraint_section : string)
  : list string :=
  [ "";
    "        SESSION_ID: " ++ session_id;
    "";
    "        OBSERVE:";
    "        - Capture the incoming request exactly as received.";
    "        - Request: " ++ DQ ++ query ++ DQ;
    "        - Constraint: " ++ DQ ++ constraint_section ++ DQ;
    "";
    "        REFLECT:";
    "        - Review the observation for missing context (missing steps, conflicting instructions).";
    "        - Call out any tensions or nutrition trade-offs before planning.";
    "";
    "        LOOP:";
    "        - Produce a corrected cooking plan that explicitly mentions how you honored the constraint.";
    "        - Highlight a single self-correction you made after your reflection.";
    "        - **The ONLY output you provide MUST be a valid, unadulterated JSON object.**";
    "        - Answer in JSON with keys: plan (array of steps), constraint_ack (string), self_corrections (string), session_id (string).";
    "        - Close the loop by confirming the plan is ready to execute.";
    "        " ].

Definition template (session_id query constraint_section : string) : string :=
  join_nl (template_lines session_id query constraint_section).

Definition _format_agent_message (query constraint : pyval)
    (session_id : string) : string :=
  let constraint_section :=
    if py_truthy constraint then constraint else PStr placeholder in
  strip (dedent (template session_id (py_str query)
                   (py_str constraint_section))).

(** The section headers of a prompt, in the order they occur: the lines that
    read [OBSERVE:], [REFLECT:] or [LOOP:] once the whitespace around them is
    stripped. *)
Definition is_section_label (s : string) : bool :=
  String.eqb s "OBSERVE:" || String.eqb s "REFLECT:" || String.eqb s "LOOP:".

Definition section_headers (prompt : string) : list string :=
  filter is_section_label (map strip (split_nl prompt)).

(** The prompt for texts that hold no line break, line by line. *)
Definition prompt_head_lines (session_id query constraint_section : string)
  : list string :=
  [ "SESSION_ID: " ++ session_id;
    "";
    "OBSERVE:";
    "- Capture the incoming request exactly as received.";
    "- Request: " ++ DQ ++ query ++ DQ;
    "- Constraint: " ++ DQ ++ constraint_section ++ DQ ].

Definition prompt_tail_lines : list string :=
  [ "";
    "REFLECT:";
    "- Review the observation for missing context (missing steps, conflicting instructions).";
    "- Call out any tensions or nutrition trade-offs before planning.";
    "";
    "LOOP:";
    "- Produce a corrected cooking plan that explicitly mentions how you honored the constraint.";
    "- Highlight a single self-correction you made after your reflection.";
    "- **The ONLY output you provide MUST be a valid, unadulterated JSON object.**";
    "- Answer in JSON with keys: plan (array of steps), constraint_ack (string), self_corrections (string), session_id (string).";
    "- Close the loop by confirming the plan is ready to execute." ].

Definition prompt_lines (session_id query constraint_section : string)
  : list string :=
  (prompt_head_lines session_id query constraint_section
   ++ prompt_tail_lines)%list.

(** The text the formatter puts in the Constraint field. *)
Definition constraint_text (constraint : pyval) : string :=
  py_str (if py_truthy constraint then constraint else PStr placeholder).


(** ** The HTTP handler *)

Module Proxy.

Record request : Type := mk_request {
  method : string;
  (** the JSON document of the body, when the body is one *)
  body_json : option pyval
}.

(** [req.get_json(silent=True)]: [None] when the body is not JSON. *)
Definition get_json_silent (req : request) : pyval :=
  match body_json req with
  | Some v => v
  | None => PNone
  end.

Record response : Type := Response {
  resp_body : string;
  resp_status : Z;
  resp_headers : list (string * string)
}.

(** The header [name] of an emitted response: the ones the handler passes,
    and the framework's default content type when it passes none. *)
Fixpoint assoc (name : string) (hs : list (string * string)) : option string :=
  match hs with
  | [] => None
  | (k, v) :: hs' => if String.eqb k name then Some v else assoc name hs'
  end.

Definition header (name : string) (r : response) : option string :=
  match assoc name (resp_headers r) with
  | Some v => Some v
  | None => if String.eqb name "Content-Type"
            then Some "text/html; charset=utf-8" else None
  end.

(** What [session.post] gives back: [requests.Response]. *)
Record http_response : Type := mk_http_response {
  status_code : Z;
  reason : string;
  url : string;
  text : string;
  (** [response.json()] *)
  json : result pyval
}.

(** What the handler reads from its surroundings. *)
Record world : Type := mk_world {
  environ_get : string -> option string;
  auth_default : result unit;
  uuid4_str : string;
  session_post : string -> pyval -> result http_response
}.

(** What the handler does to its surroundings. *)
Inductive event : Type :=
| AuthDefault
| NewAuthorizedSession
| Print (line : string)
| HttpPost (target : string) (payload : pyval).

(** Computations that log events and may raise. *)
Definition M (A : Type) : Type := (list event * result A)%type.

Definition ret {A} (a : A) : M A := ([], Return a).
Definition lift {A} (r : result A) : M A := ([], r).
Definition emit (ev : event) : M unit := ([ev], Return tt).

Definition bind {A B} (m : M A) (k : A -> M B) : M B :=
  match m with
  | (t, Return a) => let (t', r) := k a in (t ++ t', r)%list
  | (t, Raise e) => (t, Raise e)
  end.

(** [try: m  except <classes>: handler] *)
Definition try_except {A} (m : M A) (catches : exn -> bool)
    (handler : exn -> M A) : M A :=
  match m with
  | (t, Raise e) =>
      if catches e then let (t', r) := handler e in (t ++ t', r)%list
      else (t, Raise e)
  | _ => m
  end.

Notation "x <- m ;; k" := (bind m (fun x => k))
  (at level 61, m at next level, right associativity).
Notation "m ;;; k" := (bind m (fun _ => k))
  (at level 61, right associativity).

Definition _API_BASE_URL : string :=
  "https://us-central1-aiplatform.googleapis.com/v1/".

Definition cors_preflight_headers : list (string * string) :=
  [ ("Access-Control-Allow-Origin", "*");
    ("Access-Control-Allow-Methods", "POST, OPTIONS");
    ("Access-Control-Allow-Headers", "Content-Type") ].

Definition headers : list (string * string) :=
  [ ("Content-Type", "application/json");
    ("Access-Control-Allow-Origin", "*") ].

Definition missing_keys_error : pyval :=
  PDict [("error", PStr "Missing 'query' or 'constraint' in JSON body.")].

Definition configuration_error : pyval :=
  PDict [("error", PStr "Configuration Error: Agent ID environment variable (VERTEX_AGENT_ID) not set. Check deployment command.")].

(** [all(k in payload for k in keys)], which stops at the first miss. *)
Fixpoint all_in (keys : list string) (payload : pyval) : result bool :=
  match keys with
  | [] => Return true
  | k :: keys' =>
      match py_in k payload with
      | Return true => all_in keys' payload
      | Return false => Return false
      | Raise e => Raise e
      end
  end.

(** The condition of the validation [if]. *)
Definition validation_fails (payload : pyval) : result bool :=
  if negb (py_truthy payload) then Return true
  else match all_in ["query"; "constraint"] payload with
       | Return b => Return (negb b)
       | Raise e => Raise e
       end.

(** [response.raise_for_status()] *)
Definition raise_for_status (r : http_response) : result unit :=
  let code := status_code r in
  if (400 <=? code) && (code <? 500)
  then Raise (mk_exn HTTPError
                (str_of_int code ++ " Client Error: " ++ reason r
                 ++ " for url: " ++ url r))
  else if (500 <=? code) && (code <? 600)
  then Raise (mk_exn HTTPError
                (str_of_int code ++ " Server Error: " ++ reason r
                 ++ " for url: " ++ url r))
  else Return tt.

Definition catches_decode_or_type (e : exn) : bool :=
  match exn_cls e with
  | JSONDecodeError | TypeError => true
  | _ => false
  end.

Definition catches_exception (e : exn) : bool := true.

Section Handler.

(** [json.loads] on a string: the value of the document, or the exception it
    raises: [JSONDecodeError] for a malformed document, [RecursionError] or
    [ValueError] when the document runs into the interpreter's limits
    (nesting depth, digits of an integer). *)
Variable json_loads : string -> result pyval.

(** The body of the inner [try]: the value handed to [json.dumps]. *)
Definition extract_agent_json (output : pyval) : result pyval :=
  match output with
  | PStr s =>
      let start_index := find s "{" in
      let end_index := rfind s "}" in
      if negb (start_index =? -1) && negb (end_index =? -1)
         && (end_index >? start_index)
      then
        let json_string := slice s start_index (end_index + 1) in
        json_loads json_string
      else
        Raise (mk_exn JSONDecodeError
                 "JSON block not found in agent output: line 1 column 1 (char 0)")
  | _ => Return output
  end.

Definition fallback_body (output : pyval) : pyval :=
  PDict [ ("response", PStr (py_str output));
          ("note", PStr "Agent returned unparsable text response") ].

Definition unexpected_format_body (response_data : pyval) : pyval :=
  PDict [ ("response", PStr (py_str response_data));
          ("note", PStr "Unexpected response format from agent") ].

(** The outer [try] from [raise_for_status] on. *)
Definition process_response (resp : http_response) : M response :=
  lift (raise_for_status resp) ;;;
  response_data <- lift (json resp) ;;
  has_output <- lift (py_in "output" response_data) ;;
  if has_output : bool then
    output <- lift (py_getitem response_data "output") ;;
    try_except
      (agent_json <- lift (extract_agent_json output) ;;
       ret (Response (json_dumps agent_json) 200 headers))
      catches_decode_or_type
      (fun _ => ret (Response (json_dumps (fallback_body output)) 200 headers))
  else
    ret (Response (json_dumps (unexpected_format_body response_data))
           200 headers).

(** The outer [except Exception]; [resp] is the local [response] when the
    POST returned. *)
Definition upstream_failure (API_URL : string) (resp : option http_response)
    (e : exn) : M response :=
  emit (Print ("API Call to Agent Engine failed: " ++ exn_msg e)) ;;;
  let error_response :=
    ([ ("error", PStr "Failed to call Vertex AI Agent Engine.");
       ("details", PStr (exn_msg e));
       ("api_url", PStr API_URL) ]
     ++ match resp with
        | Some r => [("api_response", PStr (text r))]
        | None => []
        end)%list in
  ret (Response (json_dumps (PDict error_response)) 500 headers).

Definition call_agent (w : world) (API_URL : string) (request_body : pyval)
  : M response :=
  bind (emit (HttpPost API_URL request_body)) (fun _ =>
  match session_post w API_URL request_body with
  | Raise e => upstream_failure API_URL None e
  | Return resp =>
      try_except (process_response resp) catches_exception
        (upstream_failure API_URL (Some resp))
  end).

Definition agentProxy (w : world) (req : request) : M response :=
  if String.eqb (method req) "OPTIONS" then
    ret (Response "" 200 cors_preflight_headers)
  else if negb (String.eqb (method req) "POST") then
    ret (Response "Method Not Allowed" 405 [])
  else
    let payload := get_json_silent req in
    invalid <- lift (validation_fails payload) ;;
    if invalid : bool then
      ret (Response (json_dumps missing_keys_error) 400 headers)
    else
      query <- lift (py_getitem payload "query") ;;
      constraint <- lift (py_getitem payload "constraint") ;;
      match environ_get w "VERTEX_AGENT_ID" with
      | None | Some EmptyString =>
          ret (Response (json_dumps configuration_error) 500 headers)
      | Some AGENT_ENDPOINT =>
          let API_URL := _API_BASE_URL ++ AGENT_ENDPOINT ++ ":query" in
          emit AuthDefault ;;;
          lift (auth_default w) ;;;
          emit NewAuthorizedSession ;;;
          let session_id := uuid4_str w in
          let formatted_message :=
            _format_agent_message query constraint session_id in
          let request_body :=
            PDict [("input", PDict [ ("message", PStr formatted_message);
                                     ("session_id", PStr session_id) ])] in
          emit (Print ("Calling Agent Engine: " ++ API_URL)) ;;;
          call_agent w API_URL request_body
      end.

End Handler.

End Proxy.

(** ** Vocabulary for the handler's runs *)

Import Proxy.

(** The address and the JSON body of the POST to the agent. *)
Definition api_url (endpoint : string) : string :=
  _API_BASE_URL ++ endpoint ++ ":query".

Definition agent_request_body (query constraint : pyval) (session_id : string)
  : pyval :=
  PDict [("input",
          PDict [ ("message",
                   PStr (_format_agent_message query constraint session_id));
                  ("session_id", PStr session_id) ])].

(** A POST whose body is a JSON object holding both keys. *)
Definition validated (req : request) (query constraint : pyval) : Prop :=
  method req = "POST"
  /\ exists d, body_json req = Some (PDict d)
               /\ dict_get d "query" = Some query
               /\ dict_get d "constraint" = Some constraint.

(** A validated POST in a deployment where the agent id is set and the
    default credentials are found: the run gets as far as the upstream
    call. *)
Definition reaches_agent (w : world) (req : request)
    (query constraint : pyval) (endpoint : string) : Prop :=
  validated req query constraint
  /\ environ_get w "VERTEX_AGENT_ID" = Some endpoint
  /\ endpoint <> ""
  /\ auth_default w = Return tt.

(** What the upstream answers to the POST of this run. *)
Definition upstream_reply (w : world) (query constraint : pyval)
    (endpoint : string) : result http_response :=
  session_post w (api_url endpoint)
    (agent_request_body query constraint (uuid4_str w)).

(** A reply [raise_for_status] lets through. *)
Definition status_ok (resp : http_response) : bool :=
  negb ((400 <=? status_code resp) && (status_code resp <? 600)).

(** The response a run returns and the HTTP status it carries, if any. *)
Definition returned (m : M response) : option response :=
  match snd m with
  | Return r => Some r
  | Raise _ => None
  end.

Definition returned_status (m : M response) : option Z :=
  option_map resp_status (returned m).

(** The first and the last position of a character in a string, said
    without [find] and [rfind]. *)
Definition is_first_index (ch : ascii) (s : string) (i : nat) : Prop :=
  String.get i s = Some ch
  /\ forall k, (k < i)%nat -> String.get k s <> Some ch.

Definition is_last_index (ch : ascii) (s : string) (j : nat) : Prop :=
  String.get j s = Some ch
  /\ forall k, (j < k)%nat -> String.get k s <> Some ch.

(** The span the handler cuts out of an output string, and whether there
    is one. *)
Definition has_brace_span (s : string) : bool :=
  negb (find s "{" =? -1) && negb (rfind s "}" =? -1)
  && (rfind s "}" >? find s "{").

Definition brace_span (s : string) : string :=
  slice s (find s "{") (rfind s "}" + 1).

(** The value the handler serialises for a reply whose JSON is the object
    [d], or the exception that leaves the inner [try]. *)
Definition object_reply_value (json_loads : string -> result pyval)
    (d : list (string * pyval)) : result pyval :=
  match dict_get d "output" with
  | None => Return (unexpected_format_body (PDict d))
  | Some (PStr s) =>
      if has_brace_span s then
        match json_loads (brace_span s) with
        | Return v => Return v
        | Raise e =>
            if catches_decode_or_type e then Return (fallback_body (PStr s))
            else Raise e
        end
      else Return (fallback_body (PStr s))
  | Some output => Return output
  end.

(** The parser raises, on the span of a string output, an exception that
    the inner [except] does not catch. *)
Definition parser_escapes (json_loads : string -> result pyval)
    (d : list (string * pyval)) : bool :=
  match dict_get d "output" with
  | Some (PStr s) =>
      has_brace_span s
      && match json_loads (brace_span s) with
         | Return _ => false
         | Raise e => negb (catches_decode_or_type e)
         end
  | _ => false
  end.

(** The fallback body as the specification words it. *)
Definition claimed_fallback_body (output : string) : pyval :=
  PDict [ ("response", PStr output);
          ("note", PStr "agent returned unparsable text response") ].

(** Every response a run may return satisfies [P]. *)
Definition every_response (P : response -> Prop) (m : M response) : Prop :=
  forall t r, m = (t, Return r) -> P r.

(** A response with the JSON header pair, and with a given status too. *)
Definition json_headed (r : response) : Prop := resp_headers r = headers.

Definition json_with_status (code : Z) (r : response) : Prop :=
  resp_status r = code /\ resp_headers r = headers.

(** A parser, a deployment and requests to run the handler on: the parser
    knows the empty object, takes one text for a document nested beyond the
    recursion limit and rejects every other text; the upstream answers every
    POST alike. *)
Definition sample_loads (s : string) : result pyval :=
  if String.eqb s "{}" then Return (PDict [])
  else if String.eqb s "{[[[[[[[[[[ ... ]]]]]]]]]]}"
  then Raise (mk_exn RecursionError
                "maximum recursion depth exceeded while decoding a JSON array from a unicode string")
  else Raise (mk_exn JSONDecodeError
                "Expecting property name enclosed in double quotes: line 1 column 2 (char 1)").

Definition sample_world (agent_id : option string)
    (answer : result http_response) : world :=
  mk_world
    (fun name => if String.eqb name "VERTEX_AGENT_ID" then agent_id else None)
    (Return tt) "sid-1" (fun _ _ => answer).

Definition sample_post : request :=
  mk_request "POST"
    (Some (PDict [("query", PStr "lentil soup"); ("constraint", PStr "")])).

Definition sample_reply (code : Z) (data : result pyval) : http_response :=
  mk_http_response code "OK" "https://agent.example/q" "raw body" data.

(** The text of the [HTTPError] that [raise_for_status] raises. *)
Definition http_error_text (resp : http_response) : string :=
  str_of_int (status_code resp)
  ++ (if status_code resp <? 500 then " Client Error: " else " Server Error: ")
  ++ reason resp ++ " for url: " ++ url resp.

(** The object of the 500 body, without and with the reply's text. *)
Definition upstream_error (details target : string) (reply_text : option string)
  : pyval :=
  PDict ([ ("error", PStr "Failed to call Vertex AI Agent Engine.");
           ("details", PStr details);
           ("api_url", PStr target) ]
         ++ match reply_text with
            | Some txt => [("api_response", PStr txt)]
            | None => []
            end)%list.

(** The events of a run up to and including the POST to the agent. *)
Definition call_events (endpoint : string) (query constraint : pyval)
    (session_id : string) : list event :=
  [ AuthDefault; NewAuthorizedSession;
    Print ("Calling Agent Engine: " ++ api_url endpoint);
    HttpPost (api_url endpoint)
      (agent_request_body query constraint session_id) ].

(** [n] blanks, and a line pushed right by [n] blanks unless it is empty. *)
Fixpoint blanks (n : nat) : string :=
  match n with
  | O => ""
  | S n' => String " " (blanks n')
  end.

Definition indent_line (n : nat) (line : string) : string :=
  match line with
  | EmptyString => ""
  | _ => blanks n ++ line
  end.

(** The template's lines above the REFLECT section and from it on. *)
Definition template_head_lines (session_id query constraint_section : string)
  : list string :=
  [ "";
    "        SESSION_ID: " ++ session_id;
    "";
    "        OBSERVE:";
    "        - Capture the incoming request exactly as received.";
    "        - Request: " ++ DQ ++ query ++ DQ;
    "        - Constraint: " ++ DQ ++ constraint_section ++ DQ ].

Definition template_tail_lines : list string :=
  [ "";
    "        REFLECT:";
    "        - Review the observation for missing context (missing steps, conflicting instructions).";
    "        - Call out any tensions or nutrition trade-offs before planning.";
    "";
    "        LOOP:";
    "        - Produce a corrected cooking plan that explicitly mentions how you honored the constraint.";
    "        - Highlight a single self-correction you made after your reflection.";
    "        - **The ONLY output you provide MUST be a valid, unadulterated JSON object.**";
    "        - Answer in JSON with keys: plan (array of steps), constraint_ack (string), self_corrections (string), session_id (string).";
    "        - Close the loop by confirming the plan is ready to execute.";
    "        " ].

(** The two lines of the LOOP section that bind the agent to JSON. *)
Definition json_only_instruction : string :=
  "- **The ONLY output you provide MUST be a valid, unadulterated JSON object.**".

Definition json_keys_instruction : string :=
  "- Answer in JSON with keys: plan (array of steps), constraint_ack (string), self_corrections (string), session_id (string).".

(** What follows the first line in ['\n'.join] of a list of lines. *)
Definition join_rest (ls : list string) : string :=
  match ls with
  | [] => ""
  | _ => NL ++ join_nl ls
  end.



(** * Properties *)

(** ** Strings *)

Section StringFacts.

Lemma append_nil_r (s : string) : s ++ "" = s.
Proof. induction s as [|c s IH]; simpl; [reflexivity | now rewrite IH]. Qed.

Lemma append_assoc (a b c : string) : (a ++ b) ++ c = a ++ (b ++ c).
Proof. induction a as [|x a IH]; simpl; [reflexivity | now rewrite IH]. Qed.

Lemma prefix_app (p b : string) : String.prefix p (p ++ b) = true.
Proof.
  induction p as [|c p IH]; simpl.
  - now destruct b.
  - destruct (ascii_dec c c) as [_|N]; [exact IH | now elim N].
Qed.

Lemma prefix_split (p s : string) :
  String.prefix p s = true -> exists b, s = p ++ b.
Proof.
  revert s; induction p as [|c p IH]; intros s H.
  - now exists s.
  - destruct s as [|d s]; simpl in H; [discriminate|].
    destruct (ascii_dec c d) as [->|]; [|discriminate].
    destruct (IH _ H) as [b ->]. now exists b.
Qed.

Lemma find_opt_occurs (sub s : string) (n : nat) :
  find_opt sub s = Some n -> occurs_in sub s.
Proof.
  revert n; induction s as [|c s IH]; intros n H.
  - cbn [find_opt] in H. destruct (String.prefix sub "") eqn:P; [|discriminate].
    destruct (prefix_split _ _ P) as [b E]. exists "", b. exact E.
  - cbn [find_opt] in H.
    destruct (String.prefix sub (String c s)) eqn:P.
    + destruct (prefix_split _ _ P) as [b E]. exists "", b. exact E.
    + destruct (find_opt sub s) as [m|] eqn:F; [|discriminate].
      destruct (IH m eq_refl) as (a & b & ->).
      exists (String c a), b. reflexivity.
Qed.

Lemma occurs_find_opt (sub a b : string) :
  exists n, find_opt sub (a ++ sub ++ b) = Some n.
Proof.
  induction a as [|c a [n IH]].
  - exists 0%nat. cbn [append].
    destruct (sub ++ b) eqn:E; cbn [find_opt]; rewrite <- E, prefix_app;
      reflexivity.
  - cbn [append find_opt].
    destruct (String.prefix sub (String c (a ++ sub ++ b))).
    + now exists 0%nat.
    + rewrite IH. now exists (S n).
Qed.

(** The substring test decides occurrence. *)
Lemma contains_iff (s sub : string) :
  contains s sub = true <-> occurs_in sub s.
Proof.
  unfold contains; split.
  - destruct (find_opt sub s) as [n|] eqn:F; [|discriminate].
    intros _. eapply find_opt_occurs; eassumption.
  - intros (a & b & ->). destruct (occurs_find_opt sub a b) as [n ->].
    reflexivity.
Qed.

Lemma has_newline_app (a b : string) :
  has_newline (a ++ b) = has_newline a || has_newline b.
Proof.
  induction a as [|c a IH]; simpl; [reflexivity|].
  now rewrite IH, orb_assoc.
Qed.

Lemma split_nl_nonempty (s : string) : split_nl s <> [].
Proof.
  induction s as [|c s IH]; simpl; [discriminate|].
  destruct (Ascii.eqb c nl); [discriminate|].
  destruct (split_nl s); [contradiction | discriminate].
Qed.

Lemma split_nl_line (a : string) :
  has_newline a = false -> split_nl a = [a].
Proof.
  induction a as [|c a IH]; simpl; [reflexivity|].
  intros H. apply orb_false_elim in H as [Hc Ha].
  now rewrite Hc, (IH Ha).
Qed.

Lemma split_nl_app (a b : string) :
  has_newline a = false -> split_nl (a ++ NL ++ b) = a :: split_nl b.
Proof.
  induction a as [|c a IH]; intros H.
  - reflexivity.
  - simpl in H. apply orb_false_elim in H as [Hc Ha].
    cbn [append split_nl]. rewrite Hc, (IH Ha). reflexivity.
Qed.

(** Splitting undoes joining when no line holds a line break. *)
Lemma split_nl_join (lines : list string) :
  lines <> [] ->
  Forall (fun l => has_newline l = false) lines ->
  split_nl (join_nl lines) = lines.
Proof.
  intros Hne H. induction H as [|l ls Hl Hls IH]; [contradiction|].
  destruct ls as [|l' ls].
  - simpl. now apply split_nl_line.
  - change (join_nl (l :: l' :: ls)) with (l ++ NL ++ join_nl (l' :: ls)).
    rewrite (split_nl_app _ _ Hl), IH; [reflexivity | discriminate].
Qed.

Lemma join_split_nl (s : string) : join_nl (split_nl s) = s.
Proof.
  induction s as [|c s IH]; [reflexivity|].
  cbn [split_nl]. destruct (Ascii.eqb_spec c nl) as [->|N].
  - pose proof (split_nl_nonempty s) as Hne.
    destruct (split_nl s) as [|l ls] eqn:E; [contradiction|].
    change (join_nl ("" :: l :: ls)) with ("" ++ NL ++ join_nl (l :: ls)).
    now rewrite IH.
  - pose proof (split_nl_nonempty s) as Hne.
    destruct (split_nl s) as [|l ls] eqn:E; [contradiction|].
    rewrite <- IH. destruct ls; reflexivity.
Qed.

Lemma rstrip_app (a b : string) :
  rstrip b <> "" -> rstrip (a ++ b) = a ++ rstrip b.
Proof.
  intros H. induction a as [|c a IH]; [reflexivity|].
  cbn [append rstrip]. rewrite IH.
  destruct (a ++ rstrip b) eqn:E; [|reflexivity].
  destruct a; [|discriminate]. simpl in E. contradiction.
Qed.

Lemma rstrip_head (c : ascii) (s : string) :
  is_space c = false -> exists r, rstrip (String c s) = String c r.
Proof.
  intros H. cbn [rstrip]. destruct (rstrip s).
  - rewrite H. now exists "".
  - now eexists.
Qed.

(** A line whose first character is neither whitespace nor the initial of
    a section label is not a section header. *)
Lemma not_label_by_initial (c : ascii) (s : string) :
  is_space c = false ->
  Ascii.eqb c "O" = false -> Ascii.eqb c "R" = false ->
  Ascii.eqb c "L" = false ->
  is_section_label (strip (String c s)) = false.
Proof.
  intros Hs HO HR HL. unfold strip. cbn [lstrip]. rewrite Hs.
  destruct (rstrip_head c s Hs) as [r ->].
  unfold is_section_label. cbn [String.eqb]. now rewrite HO, HR, HL.
Qed.

End StringFacts.

(** ** The prompt formatter *)

Section FormatterFacts.

Lemma occurs_in_refl (x : string) : occurs_in x x.
Proof. exists "", "". simpl. now rewrite append_nil_r. Qed.

Lemma occurs_in_app_l (x s a : string) :
  occurs_in x s -> occurs_in x (a ++ s).
Proof.
  intros (u & v & ->). exists (a ++ u), v. now rewrite append_assoc.
Qed.

Lemma occurs_in_app_r (x s b : string) :
  occurs_in x s -> occurs_in x (s ++ b).
Proof.
  intros (u & v & ->). exists u, (v ++ b). now rewrite !append_assoc.
Qed.

Lemma occurs_in_join (x l : string) (lines : list string) :
  In l lines -> occurs_in x l -> occurs_in x (join_nl lines).
Proof.
  intros Hin Hx. induction lines as [|l0 ls IH]; [contradiction|].
  destruct ls as [|l1 ls].
  - destruct Hin as [->|[]]. exact Hx.
  - change (join_nl (l0 :: l1 :: ls)) with (l0 ++ NL ++ join_nl (l1 :: ls)).
    destruct Hin as [->|Hin].
    + now apply occurs_in_app_r.
    + now apply occurs_in_app_l, occurs_in_app_l, IH.
Qed.

Lemma join_nl_app (xs ys : list string) :
  xs <> [] -> ys <> [] ->
  join_nl (xs ++ ys) = join_nl xs ++ NL ++ join_nl ys.
Proof.
  intros Hx Hy. induction xs as [|x xs IH]; [contradiction|].
  destruct xs as [|x' xs].
  - destruct ys; [contradiction | reflexivity].
  - change (join_nl ((x :: x' :: xs) ++ ys))
      with (x ++ NL ++ join_nl ((x' :: xs) ++ ys)).
    rewrite IH by discriminate.
    change (join_nl (x :: x' :: xs)) with (x ++ NL ++ join_nl (x' :: xs)).
    now rewrite !append_assoc.
Qed.



Lemma constraint_text_no_newline (c : pyval) :
  has_newline (py_str c) = false -> has_newline (constraint_text c) = false.
Proof.
  unfold constraint_text. destruct (py_truthy c); [trivial | reflexivity].
Qed.

Lemma template_lines_no_newline (sid q cs : string) :
  has_newline sid = false -> has_newline q = false ->
  has_newline cs = false ->
  Forall (fun l => has_newline l = false) (template_lines sid q cs).
Proof.
  intros Hs Hq Hc. unfold template_lines.
  repeat constructor; rewrite ?has_newline_app, ?Hs, ?Hq, ?Hc; reflexivity.
Qed.

Lemma prompt_lines_no_newline (sid q cs : string) :
  has_newline sid = false -> has_newline q = false ->
  has_newline cs = false ->
  Forall (fun l => has_newline l = false) (prompt_lines sid q cs).
Proof.
  intros Hs Hq Hc. unfold prompt_lines, prompt_head_lines, prompt_tail_lines.
  repeat constructor; rewrite ?has_newline_app, ?Hs, ?Hq, ?Hc; reflexivity.
Qed.

(** On the template's own lines [dedent] takes the eight blanks off every
    line and empties the last one. *)
Lemma dedent_template_lines (sid q cs : string) :
  dedent_lines (template_lines sid q cs)
  = ("" :: prompt_lines sid q cs ++ [""])%list.
Proof. reflexivity. Qed.

Lemma strip_prompt (sid q cs : string) :
  strip (join_nl ("" :: prompt_lines sid q cs ++ [""])%list)
  = join_nl (prompt_lines sid q cs).
Proof.
  unfold strip.
  change (lstrip (join_nl ("" :: prompt_lines sid q cs ++ [""])%list))
    with (join_nl (prompt_head_lines sid q cs
                   ++ (prompt_tail_lines ++ [""]))%list).
  unfold prompt_lines.
  rewrite !join_nl_app by discriminate.
  rewrite rstrip_app.
  - f_equal.
  - vm_compute. discriminate.
Qed.

(** The prompt for a query, a constraint text and a session id that hold
    no line break. *)
Lemma format_single_line (q c : pyval) (sid : string) :
  has_newline (py_str q) = false ->
  has_newline (py_str c) = false ->
  has_newline sid = false ->
  _format_agent_message q c sid
  = join_nl (prompt_lines sid (py_str q) (constraint_text c)).
Proof.
  intros Hq Hc Hs.
  pose proof (constraint_text_no_newline c Hc) as Hc'.
  unfold _format_agent_message, template, dedent.
  fold (constraint_text c).
  rewrite split_nl_join;
    [| discriminate | now apply template_lines_no_newline].
  rewrite dedent_template_lines. apply strip_prompt.
Qed.

Lemma session_line_not_label (sid : string) :
  is_section_label (strip ("SESSION_ID: " ++ sid)) = false.
Proof. apply (not_label_by_initial "S" ("ESSION_ID: " ++ sid)); reflexivity. Qed.

Lemma request_line_not_label (s : string) :
  is_section_label (strip ("- Request: " ++ s)) = false.
Proof. apply (not_label_by_initial "-" (" Request: " ++ s)); reflexivity. Qed.

Lemma constraint_line_not_label (s : string) :
  is_section_label (strip ("- Constraint: " ++ s)) = false.
Proof.
  apply (not_label_by_initial "-" (" Constraint: " ++ s)); reflexivity.
Qed.

Lemma prompt_lines_headers (sid q cs : string) :
  filter is_section_label (map strip (prompt_lines sid q cs))
  = ["OBSERVE:"; "REFLECT:"; "LOOP:"].
Proof.
  unfold prompt_lines. rewrite map_app, filter_app.
  replace (filter is_section_label (map strip prompt_tail_lines))
    with ["REFLECT:"; "LOOP:"] by reflexivity.
  unfold prompt_head_lines. cbn [map filter].
  rewrite session_line_not_label.
  rewrite request_line_not_label, constraint_line_not_label.
  reflexivity.
Qed.

End FormatterFacts.

Section Frame.

Lemma split_nl_concat (a b : string) :
  split_nl (a ++ NL ++ b) = (split_nl a ++ split_nl b)%list.
Proof.
  induction a as [|c a IH]; [reflexivity|].
  cbn [append split_nl]. rewrite IH.
  destruct (Ascii.eqb c nl); [reflexivity|].
  pose proof (split_nl_nonempty a) as Hne.
  destruct (split_nl a); [contradiction | reflexivity].
Qed.

Lemma split_nl_prefix (pfx y : string) :
  has_newline pfx = false ->
  exists l ls, split_nl y = l :: ls
               /\ split_nl (pfx ++ y) = (pfx ++ l) :: ls.
Proof.
  intros H. pose proof (split_nl_nonempty y) as Hne.
  destruct (split_nl y) as [|l ls] eqn:E; [contradiction|].
  exists l, ls. split; [reflexivity|].
  induction pfx as [|c pfx IH]; [exact E|].
  simpl in H. apply orb_false_elim in H as [Hc Hp].
  cbn [append split_nl]. now rewrite Hc, (IH Hp).
Qed.

Lemma indents_app (xs ys : list string) :
  indents (xs ++ ys) = (indents xs ++ indents ys)%list.
Proof. unfold indents. now rewrite filter_app, map_app. Qed.

Lemma prefix_refl (m : string) : String.prefix m m = true.
Proof.
  induction m as [|c m IH]; [reflexivity|]. simpl.
  destruct (ascii_dec c c) as [_|N]; [exact IH | now elim N].
Qed.

Lemma prefix_nil (m : string) : String.prefix "" m = true.
Proof. now destruct m. Qed.

Lemma cut_at_mismatch_prefix (m i : string) :
  String.prefix (cut_at_mismatch m i) m = true.
Proof.
  revert i; induction m as [|x m IH]; intros i; [reflexivity|].
  destruct i as [|y i]; [apply prefix_refl|].
  cbn [cut_at_mismatch]. destruct (Ascii.eqb x y); [|reflexivity].
  simpl. destruct (ascii_dec x x) as [_|N]; [apply IH | now elim N].
Qed.

(** One more indentation can only shorten the margin. *)
Lemma update_margin_shrinks (m i : string) :
  exists m', update_margin (Some m) i = Some m' /\ String.prefix m' m = true.
Proof.
  unfold update_margin, startswith.
  destruct (String.prefix m i).
  - exists m. split; [reflexivity | apply prefix_refl].
  - destruct (String.prefix i m) eqn:P.
    + now exists i.
    + eexists. split; [reflexivity | apply cut_at_mismatch_prefix].
Qed.

Lemma prefix_of_blanks (m : string) (k : nat) :
  String.prefix m (blanks k) = true ->
  exists k', (k' <= k)%nat /\ m = blanks k'.
Proof.
  revert m; induction k as [|k IH]; intros m H.
  - destruct m; [|discriminate]. now exists 0%nat.
  - destruct m as [|c m]; [exists 0%nat; split; [lia | reflexivity]|].
    simpl in H. destruct (ascii_dec c " ") as [->|]; [|discriminate].
    destruct (IH m H) as (k' & Hk & ->).
    exists (S k'). split; [lia | reflexivity].
Qed.

Lemma fold_margin_blanks (l : list string) (k : nat) :
  exists k', (k' <= k)%nat
             /\ fold_left update_margin l (Some (blanks k))
                = Some (blanks k').
Proof.
  revert k; induction l as [|i l IH]; intros k.
  - exists k. split; [lia | reflexivity].
  - cbn [fold_left].
    destruct (update_margin_shrinks (blanks k) i) as (m' & -> & P).
    destruct (prefix_of_blanks m' k P) as (k1 & H1 & ->).
    destruct (IH k1) as (k2 & H2 & E).
    exists k2. split; [lia | exact E].
Qed.

Lemma remove_no_margin (l : string) : remove_margin "" l = l.
Proof. now destruct l. Qed.

Lemma dedent_lines_by_margin (raw : list string) (k : nat) :
  find_margin (map whitespace_only_sub raw) = Some (blanks k) ->
  dedent_lines raw
  = map (remove_margin (blanks k)) (map whitespace_only_sub raw).
Proof.
  intros H. unfold dedent_lines. rewrite H. destruct k as [|k].
  - cbn [blanks]. symmetry.
    erewrite map_ext; [apply map_id | intros l; apply remove_no_margin].
  - reflexivity.
Qed.

Lemma join_nl_cons (l : string) (ls : list string) :
  join_nl (l :: ls) = l ++ join_rest ls.
Proof.
  destruct ls as [|l' ls]; [|reflexivity].
  simpl. now rewrite append_nil_r.
Qed.



Lemma append_cons_nonempty (a : string) (c : ascii) (r : string) :
  a ++ String c r <> "".
Proof. destruct a; discriminate. Qed.

(** The lines of the interpolated template: an empty line, the session
    line up to the first line break of the session id, whatever the three
    texts add, and the template's own lines from REFLECT on. *)
Lemma template_split (sid q cs : string) :
  exists l0 ls,
    split_nl (template sid q cs)
    = "" :: ("        SESSION_ID: " ++ l0)
         :: (ls ++ template_tail_lines)%list
    /\ (has_newline sid = false -> l0 = sid).
Proof.
  unfold template.
  change (template_lines sid q cs)
    with (template_head_lines sid q cs ++ template_tail_lines)%list.
  rewrite join_nl_app by discriminate. rewrite split_nl_concat.
  replace (split_nl (join_nl template_tail_lines)) with template_tail_lines
    by reflexivity.
  set (rest := join_nl (tl (tl (template_head_lines sid q cs)))).
  change (join_nl (template_head_lines sid q cs))
    with ("" ++ NL ++ ("        SESSION_ID: " ++ sid) ++ NL ++ rest).
  change (split_nl ("" ++ NL ++ ("        SESSION_ID: " ++ sid) ++ NL ++ rest))
    with ("" :: split_nl (("        SESSION_ID: " ++ sid) ++ NL ++ rest)).
  destruct (split_nl_prefix "        SESSION_ID: " (sid ++ NL ++ rest) eq_refl)
    as (l0 & ls & E0 & E').
  rewrite append_assoc, E'. exists l0, ls. split; [reflexivity|].
  intros Hs. rewrite (split_nl_app sid rest Hs) in E0. now injection E0.
Qed.

(** The margin of the interpolated template is made of at most eight
    blanks. *)
Lemma template_margin (l0 : string) (ls : list string) :
  exists k, (k <= 8)%nat
    /\ find_margin
         (map whitespace_only_sub
            ("" :: ("        SESSION_ID: " ++ l0)
                :: (ls ++ template_tail_lines)%list))
       = Some (blanks k).
Proof.
  unfold find_margin. cbn [map].
  change (indents (whitespace_only_sub ""
                   :: whitespace_only_sub ("        SESSION_ID: " ++ l0)
                   :: map whitespace_only_sub (ls ++ template_tail_lines)))
    with (blanks 8 :: indents (map whitespace_only_sub
                                 (ls ++ template_tail_lines))).
  cbn [fold_left update_margin]. apply fold_margin_blanks.
Qed.

(** What is left of the template once a margin of [k] blanks is off. *)
Lemma frame_after_margin (k : nat) (l0 : string) (ls : list string) :
  (k <= 8)%nat ->
  strip (join_nl
             (map (remove_margin (blanks k))
                (map whitespace_only_sub
                   ("" :: ("        SESSION_ID: " ++ l0)
                       :: (ls ++ template_tail_lines)%list))))
  = "SESSION_ID: "
    ++ (l0 ++ join_rest (map (remove_margin (blanks k))
                           (map whitespace_only_sub ls)))
    ++ NL ++ join_nl (map (indent_line (8 - k)) prompt_tail_lines).
Proof.
  intros Hk. rewrite !map_cons, !map_app.
  set (X := map (remove_margin (blanks k)) (map whitespace_only_sub ls)).
  assert (T : map (remove_margin (blanks k))
                (map whitespace_only_sub template_tail_lines)
              = (map (indent_line (8 - k)) prompt_tail_lines ++ [""])%list).
  { do 9 (destruct k as [|k]; [reflexivity|]). lia. }
  rewrite T.
  set (TJ := map (indent_line (8 - k)) prompt_tail_lines).
  assert (L1 : remove_margin (blanks k)
                 (whitespace_only_sub ("        SESSION_ID: " ++ l0))
               = blanks (8 - k) ++ "SESSION_ID: " ++ l0).
  { do 9 (destruct k as [|k]; [reflexivity|]). lia. }
  rewrite L1.
  set (L := blanks (8 - k) ++ "SESSION_ID: " ++ l0).
  replace (remove_margin (blanks k) (whitespace_only_sub "")) with ""
    by (now destruct k).
  pose proof (join_nl_cons L X) as E. set (rest := join_rest X) in *.
  change (join_nl ("" :: L :: (X ++ TJ ++ [""])%list))
    with ("" ++ NL ++ join_nl ((L :: X) ++ (TJ ++ [""]))%list).
  rewrite join_nl_app;
    [| discriminate | unfold TJ; cbn; discriminate].
  rewrite E. unfold strip.
  assert (Ls : lstrip ("" ++ NL ++ (L ++ rest)
                       ++ NL ++ join_nl (TJ ++ [""])%list)
               = "SESSION_ID: " ++ (l0 ++ rest)
                 ++ NL ++ join_nl (TJ ++ [""])%list).
  { unfold L, TJ.
    do 9 (destruct k as [|k];
          [cbn [Nat.sub blanks append lstrip is_space];
           rewrite ?append_assoc; reflexivity|]).
    lia. }
  rewrite Ls.
  assert (Rs : rstrip (NL ++ join_nl (TJ ++ [""])%list) = NL ++ join_nl TJ).
  { unfold TJ. do 9 (destruct k as [|k]; [vm_compute; reflexivity|]). lia. }
  rewrite <- append_assoc.
  rewrite rstrip_app; rewrite Rs; [|discriminate].
  now rewrite append_assoc.
Qed.











End Frame.


Section FormatterClaims.

(** C6, as amended.  For every query, constraint and session id whose text
    holds no line break, the prompt has exactly the section headers
    OBSERVE:, REFLECT:, LOOP:, once each and in that order, and the text of
    the query occurs in it unchanged; equal arguments give equal prompts. *)
Theorem single_line_prompt_sections (q c : pyval) (sid : string) :
  has_newline (py_str q) = false ->
  has_newline (py_str c) = false ->
  has_newline sid = false ->
  section_headers (_format_agent_message q c sid)
    = ["OBSERVE:"; "REFLECT:"; "LOOP:"]
  /\ occurs_in (py_str q) (_format_agent_message q c sid)
  /\ (forall q' c' sid', q' = q -> c' = c -> sid' = sid ->
        _format_agent_message q' c' sid' = _format_agent_message q c sid).
Proof.
  intros Hq Hc Hs.
  pose proof (constraint_text_no_newline c Hc) as Hc'.
  rewrite (format_single_line q c sid Hq Hc Hs). repeat split.
  - unfold section_headers.
    rewrite split_nl_join;
      [apply prompt_lines_headers | discriminate
      | now apply prompt_lines_no_newline].
  - apply occurs_in_join with (l := "- Request: " ++ DQ ++ py_str q ++ DQ).
    + unfold prompt_lines, prompt_head_lines. simpl. tauto.
    + apply occurs_in_app_l, occurs_in_app_l, occurs_in_app_r, occurs_in_refl.
  - intros q' c' sid' -> -> ->.
    apply (format_single_line q c sid Hq Hc Hs).
Qed.

Lemma single_line_prompt_sections_witness :
  section_headers (_format_agent_message (PStr "lentil soup") (PStr "") "sid-1")
    = ["OBSERVE:"; "REFLECT:"; "LOOP:"]
  /\ occurs_in "lentil soup"
       (_format_agent_message (PStr "lentil soup") (PStr "") "sid-1").
Proof.
  destruct (single_line_prompt_sections (PStr "lentil soup") (PStr "") "sid-1")
    as (H1 & H2 & _); [reflexivity | reflexivity | reflexivity |].
  split; [exact H1 | exact H2].
Defined.

(** C6 as stated fails: a query that holds a line reading OBSERVE: and a
    line of blanks yields a prompt with two OBSERVE: headers in which the
    query no longer occurs as it was sent. *)
Lemma injected_header_counterexample :
  let q := "x" ++ NL ++ "OBSERVE:" ++ NL ++ "  " ++ NL ++ "y" in
  section_headers (_format_agent_message (PStr q) (PStr "") "sid-1")
    = ["OBSERVE:"; "OBSERVE:"; "REFLECT:"; "LOOP:"]
  /\ ~ occurs_in q (_format_agent_message (PStr q) (PStr "") "sid-1").
Proof.
  split.
  - vm_compute. reflexivity.
  - intros H. apply contains_iff in H. vm_compute in H. discriminate.
Qed.

(** C7 at a constraint of two lines, the second one indented by eight
    blanks: [dedent] runs after the interpolation and takes the blanks off,
    so the prompt holds the constraint without its indentation, and the
    constraint as sent occurs nowhere in it. *)
Theorem indented_constraint_not_verbatim :
  let c := "no nuts" ++ NL ++ "        no dairy" in
  _format_agent_message (PStr "soup") (PStr c) "sid-1"
    = join_nl (prompt_lines "sid-1" "soup" ("no nuts" ++ NL ++ "no dairy"))
  /\ ~ occurs_in c (_format_agent_message (PStr "soup") (PStr c) "sid-1").
Proof.
  split.
  - vm_compute. reflexivity.
  - intros H. apply contains_iff in H. vm_compute in H. discriminate.
Qed.

(** The constraint field holds the placeholder for the empty string and the
    constraint itself for any other string. *)
Lemma constraint_text_of_str (s : string) :
  constraint_text (PStr s) = if String.eqb s "" then placeholder else s.
Proof. unfold constraint_text. simpl. now destruct (String.eqb s ""). Qed.




End FormatterClaims.

(** ** The handler *)

Section HandlerFacts.

Variable json_loads : string -> result pyval.

Lemma dict_get_nonempty (d : list (string * pyval)) (k : string) (x : pyval) :
  dict_get d k = Some x -> py_truthy (PDict d) = true.
Proof. destruct d; [discriminate | reflexivity]. Qed.

Lemma py_in_dict (d : list (string * pyval)) (k : string) (x : pyval) :
  dict_get d k = Some x -> py_in k (PDict d) = Return true.
Proof. intros H. simpl. unfold dict_has. now rewrite H. Qed.

(** A JSON object with both keys passes the validation test, and the two
    subscriptions give its values. *)
Lemma validated_passes (req : request) (q c : pyval) :
  validated req q c ->
  validation_fails (get_json_silent req) = Return false
  /\ py_getitem (get_json_silent req) "query" = Return q
  /\ py_getitem (get_json_silent req) "constraint" = Return c.
Proof.
  intros (_ & d & Hb & Hq & Hc). unfold get_json_silent. rewrite Hb.
  unfold validation_fails. rewrite (dict_get_nonempty d _ _ Hq).
  cbn [negb all_in]. rewrite (py_in_dict d _ _ Hq), (py_in_dict d _ _ Hc).
  simpl. rewrite Hq, Hc. repeat split; reflexivity.
Qed.

Lemma raise_for_status_ok (resp : http_response) :
  status_ok resp = true -> raise_for_status resp = Return tt.
Proof.
  unfold status_ok, raise_for_status. intros H.
  apply negb_true_iff in H.
  destruct (400 <=? status_code resp) eqn:A;
    destruct (status_code resp <? 500) eqn:B;
    destruct (500 <=? status_code resp) eqn:C;
    destruct (status_code resp <? 600) eqn:D; simpl in *;
    try reflexivity; try discriminate; lia.
Qed.

Lemma raise_for_status_error (resp : http_response) :
  status_ok resp = false ->
  exists msg, raise_for_status resp = Raise (mk_exn HTTPError msg).
Proof.
  unfold status_ok, raise_for_status. intros H.
  apply negb_false_iff in H.
  destruct (400 <=? status_code resp) eqn:A;
    destruct (status_code resp <? 500) eqn:B;
    destruct (500 <=? status_code resp) eqn:C;
    destruct (status_code resp <? 600) eqn:D; simpl in *;
    try discriminate; try (eexists; reflexivity); lia.
Qed.

(** The run of a request that reaches the agent: three events, then the
    upstream call. *)
Lemma agentProxy_reaches_call (w : world) (req : request) (q c : pyval)
    (endpoint : string) :
  reaches_agent w req q c endpoint ->
  agentProxy json_loads w req
  = let (t, r) := call_agent json_loads w (api_url endpoint)
                    (agent_request_body q c (uuid4_str w)) in
    ([ AuthDefault; NewAuthorizedSession;
       Print ("Calling Agent Engine: " ++ api_url endpoint) ] ++ t, r)%list.
Proof.
  intros (Hv & He & Hne & Ha).
  destruct (validated_passes req q c Hv) as (V & Q & C).
  destruct Hv as (Hm & _).
  unfold agentProxy. rewrite Hm. cbn [String.eqb Ascii.eqb Bool.eqb negb].
  rewrite V. unfold bind at 1. unfold lift at 1.
  rewrite Q. unfold bind at 1. unfold lift at 1.
  rewrite C. unfold bind at 1. unfold lift at 1.
  rewrite He. destruct endpoint as [|a e]; [contradiction|].
  rewrite Ha. unfold bind, emit, lift.
  fold (api_url (String a e)). fold (agent_request_body q c (uuid4_str w)).
  destruct (call_agent json_loads w (api_url (String a e))
              (agent_request_body q c (uuid4_str w))) as [t r].
  destruct r; reflexivity.
Qed.

Lemma returned_reaches_call (w : world) (req : request) (q c : pyval)
    (endpoint : string) :
  reaches_agent w req q c endpoint ->
  returned (agentProxy json_loads w req)
  = returned (call_agent json_loads w (api_url endpoint)
                (agent_request_body q c (uuid4_str w))).
Proof.
  intros H. rewrite (agentProxy_reaches_call w req q c endpoint H).
  unfold returned. now destruct (call_agent _ _ _ _).
Qed.

(** What the upstream call returns, by what the upstream answers. *)
Lemma call_agent_raises (w : world) (u : string) (b : pyval) (e : exn) :
  session_post w u b = Raise e ->
  exists body, returned (call_agent json_loads w u b)
               = Some (Response body 500 headers).
Proof.
  intros H. unfold call_agent, returned, bind, emit. rewrite H.
  unfold upstream_failure, bind, emit, ret. simpl. eexists; reflexivity.
Qed.

Lemma call_agent_process (w : world) (u : string) (b : pyval)
    (resp : http_response) :
  session_post w u b = Return resp ->
  returned (call_agent json_loads w u b)
  = returned (try_except (process_response json_loads resp)
                catches_exception (upstream_failure u (Some resp))).
Proof.
  intros H. unfold call_agent, returned. unfold bind at 1, emit. rewrite H.
  now destruct (try_except _ _ _) as [t [r|e]].
Qed.

Lemma caught_gives_500 (u : string) (resp : http_response)
    (m : M response) (t : list event) (e : exn) :
  m = (t, Raise e) ->
  exists body,
    returned (try_except m catches_exception (upstream_failure u (Some resp)))
    = Some (Response body 500 headers).
Proof.
  intros ->. unfold try_except, catches_exception, upstream_failure.
  unfold bind, emit, ret, returned. simpl. eexists; reflexivity.
Qed.

Lemma process_response_bad_status (resp : http_response) :
  status_ok resp = false ->
  exists e, process_response json_loads resp = ([], Raise e).
Proof.
  intros H. destruct (raise_for_status_error resp H) as [msg E].
  unfold process_response, bind, lift. rewrite E. eexists; reflexivity.
Qed.

Lemma process_response_bad_json (resp : http_response) (e : exn) :
  status_ok resp = true -> json resp = Raise e ->
  process_response json_loads resp = ([], Raise e).
Proof.
  intros H J. unfold process_response, bind, lift.
  now rewrite (raise_for_status_ok resp H), J.
Qed.

Lemma extract_agent_json_str (s : string) :
  extract_agent_json json_loads (PStr s)
  = if has_brace_span s then json_loads (brace_span s)
    else Raise (mk_exn JSONDecodeError
                  "JSON block not found in agent output: line 1 column 1 (char 0)").
Proof. reflexivity. Qed.

(** A reply of good status whose JSON is an object ends in a 200 response
    with the value [object_reply_value] names, or in the exception it
    names. *)
Lemma process_response_object (resp : http_response)
    (d : list (string * pyval)) :
  status_ok resp = true -> json resp = Return (PDict d) ->
  process_response json_loads resp
  = ([], match object_reply_value json_loads d with
         | Return v => Return (Response (json_dumps v) 200 headers)
         | Raise e => Raise e
         end).
Proof.
  intros H J. unfold process_response, object_reply_value.
  unfold bind at 1, lift at 1. rewrite (raise_for_status_ok resp H).
  unfold bind at 1, lift at 1. rewrite J.
  unfold bind at 1, lift at 1. cbn [py_in py_getitem]. unfold dict_has.
  destruct (dict_get d "output") as [out|]; [|reflexivity].
  unfold bind at 1, lift at 1.
  destruct out as [|b|z|s|l|d']; try reflexivity.
  rewrite extract_agent_json_str.
  destruct (has_brace_span s); [|reflexivity].
  destruct (json_loads (brace_span s)) as [v|e]; [reflexivity|].
  unfold try_except, bind, lift, ret.
  destruct (catches_decode_or_type e); reflexivity.
Qed.

Lemma returned_object_reply (w : world) (req : request) (q c : pyval)
    (endpoint : string) (resp : http_response) (d : list (string * pyval))
    (v : pyval) :
  reaches_agent w req q c endpoint ->
  upstream_reply w q c endpoint = Return resp ->
  status_ok resp = true -> json resp = Return (PDict d) ->
  object_reply_value json_loads d = Return v ->
  returned (agentProxy json_loads w req)
  = Some (Response (json_dumps v) 200 headers).
Proof.
  intros Hr Hp Hs Hj Hv.
  rewrite (returned_reaches_call w req q c endpoint Hr).
  rewrite (call_agent_process _ _ _ resp Hp).
  now rewrite (process_response_object resp d Hs Hj), Hv.
Qed.

End HandlerFacts.

(** ** Finding the brace span *)

Section SpanFacts.

Lemma prefix_char (ch c : ascii) (s : string) :
  String.prefix (String ch "") (String c s) = Ascii.eqb ch c.
Proof.
  cbn [String.prefix]. destruct (ascii_dec ch c) as [->|N].
  - rewrite Ascii.eqb_refl. now destruct s.
  - symmetry. now apply Ascii.eqb_neq.
Qed.

Lemma get_lt_length (s : string) (n : nat) (c : ascii) :
  String.get n s = Some c -> (n < String.length s)%nat.
Proof.
  revert n; induction s as [|x s IH]; intros n H; [discriminate|].
  destruct n as [|n]; simpl in *; [lia|]. apply IH in H. lia.
Qed.

Lemma first_index_tail (ch c : ascii) (s : string) (i : nat) :
  is_first_index ch (String c s) (S i) ->
  c <> ch /\ is_first_index ch s i.
Proof.
  intros [Hg Hk]. split.
  - intros ->. apply (Hk 0%nat); [lia | reflexivity].
  - split; [exact Hg|]. intros k Hlt. apply (Hk (S k)). lia.
Qed.

(** [find] returns the first index of a character. *)
Lemma find_opt_first (ch : ascii) (s : string) (i : nat) :
  is_first_index ch s i -> find_opt (String ch "") s = Some i.
Proof.
  revert i; induction s as [|c s IH]; intros i H.
  - destruct H as [H _]. destruct i; discriminate.
  - cbn [find_opt]. rewrite prefix_char. destruct i as [|i].
    + destruct H as [H _]. simpl in H. injection H as ->.
      now rewrite Ascii.eqb_refl.
    + apply first_index_tail in H as [N H].
      assert (E : Ascii.eqb ch c = false)
        by (apply Ascii.eqb_neq; congruence).
      rewrite E, (IH i H). reflexivity.
Qed.

Lemma rfind_opt_absent (ch : ascii) (s : string) :
  (forall k, String.get k s <> Some ch) ->
  rfind_opt (String ch "") s = None.
Proof.
  induction s as [|c s IH]; intros H; [reflexivity|].
  cbn [rfind_opt]. rewrite IH.
  - rewrite prefix_char.
    assert (E : Ascii.eqb ch c = false).
    { apply Ascii.eqb_neq. intros ->. now apply (H 0%nat). }
    now rewrite E.
  - intros k. apply (H (S k)).
Qed.

(** [rfind] returns the last index of a character. *)
Lemma rfind_opt_last (ch : ascii) (s : string) (j : nat) :
  is_last_index ch s j -> rfind_opt (String ch "") s = Some j.
Proof.
  revert j; induction s as [|c s IH]; intros j [Hg Hk].
  - destruct j; discriminate.
  - cbn [rfind_opt]. destruct j as [|j].
    + rewrite rfind_opt_absent.
      * rewrite prefix_char. simpl in Hg. injection Hg as ->.
        now rewrite Ascii.eqb_refl.
      * intros k. apply (Hk (S k)). lia.
    + rewrite (IH j); [reflexivity|]. split; [exact Hg|].
      intros k Hlt. apply (Hk (S k)). lia.
Qed.

Lemma slice_substring (s : string) (i j : nat) :
  (i < j)%nat -> (j < String.length s)%nat ->
  slice s (Z.of_nat i) (Z.of_nat j + 1) = String.substring i (j - i + 1) s.
Proof.
  intros Hij Hj. unfold slice, clamp_index, len.
  destruct (Z.of_nat i <? 0) eqn:A; [lia|].
  destruct (Z.of_nat j + 1 <? 0) eqn:B; [lia|].
  rewrite !Z.min_l by lia.
  destruct (Z.of_nat i <? Z.of_nat j + 1) eqn:C; [|lia].
  f_equal; lia.
Qed.

End SpanFacts.

(** ** The claims on the handler *)

(** C2.  When the first opening brace of an output string stands before its
    last closing brace, the handler parses exactly the piece from the one
    through the other, and the extraction gives what the parser gives on
    that piece. *)
Theorem extraction_uses_outermost_span
    (json_loads : string -> result pyval) (s : string) (i j : nat) :
  is_first_index "{" s i -> is_last_index "}" s j -> (i < j)%nat ->
  has_brace_span s = true
  /\ brace_span s = String.substring i (j - i + 1) s
  /\ extract_agent_json json_loads (PStr s)
     = json_loads (String.substring i (j - i + 1) s).
Proof.
  intros Hi Hj Hij.
  assert (F : find s "{" = Z.of_nat i)
    by (unfold find; now rewrite (find_opt_first _ _ _ Hi)).
  assert (R : rfind s "}" = Z.of_nat j)
    by (unfold rfind; now rewrite (rfind_opt_last _ _ _ Hj)).
  assert (L : (j < String.length s)%nat)
    by (destruct Hj as [Hg _]; exact (get_lt_length _ _ _ Hg)).
  assert (B : has_brace_span s = true).
  { unfold has_brace_span. rewrite F, R.
    destruct (Z.of_nat i =? -1) eqn:A; [lia|].
    destruct (Z.of_nat j =? -1) eqn:A'; [lia|].
    destruct (Z.of_nat j >? Z.of_nat i) eqn:A''; [reflexivity|]. lia. }
  assert (S : brace_span s = String.substring i (j - i + 1) s).
  { unfold brace_span. rewrite F, R. now apply slice_substring. }
  repeat split; [exact B | exact S |].
  rewrite extract_agent_json_str, B, S. reflexivity.
Qed.

Lemma extraction_uses_outermost_span_witness :
  brace_span "{a} and {b}" = "{a} and {b}"
  /\ extract_agent_json sample_loads (PStr "ok {} done") = Return (PDict []).
Proof.
  split.
  - destruct (extraction_uses_outermost_span sample_loads
                "{a} and {b}" 0 10) as (_ & H & _).
    + split; [reflexivity | intros k Hk; lia].
    + split; [reflexivity|]. intros k Hk.
      do 11 (destruct k as [|k]; [lia|]). discriminate.
    + lia.
    + exact H.
  - destruct (extraction_uses_outermost_span sample_loads
                "ok {} done" 3 4) as (_ & _ & H).
    + split; [reflexivity|]. intros k Hk.
      do 3 (destruct k as [|k]; [discriminate|]). lia.
    + split; [reflexivity|]. intros k Hk.
      do 5 (destruct k as [|k]; [lia|]).
      do 5 (destruct k as [|k]; [discriminate|]). discriminate.
    + lia.
    + exact H.
Defined.

(** The span runs from the first opening brace to the last closing one,
    across any balanced pair in between. *)
Example span_crosses_balanced_pairs :
  brace_span "x {a} y {b} z" = "{a} y {b}".
Proof. reflexivity. Qed.

(** A body that is no JSON, and a JSON object that lacks one of the two
    keys, are answered with 400 and the fixed error body. *)
Lemma missing_key_gives_400 (json_loads : string -> result pyval)
    (w : world) (req : request) :
  method req = "POST" ->
  (body_json req = None
   \/ exists d, body_json req = Some (PDict d)
                /\ (dict_get d "query" = None
                    \/ dict_get d "constraint" = None)) ->
  agentProxy json_loads w req
  = ([], Return (Response (json_dumps missing_keys_error) 400 headers)).
Proof.
  intros Hm H. unfold agentProxy. rewrite Hm.
  cbn [String.eqb Ascii.eqb Bool.eqb negb]. unfold get_json_silent.
  destruct H as [->|(d & -> & H)]; [reflexivity|].
  unfold validation_fails. destruct d as [|kv d]; [reflexivity|].
  cbn [py_truthy negb all_in py_in]. unfold dict_has.
  destruct (dict_get (kv :: d) "query") eqn:Q.
  - destruct H as [H|H]; [discriminate|]. rewrite H. reflexivity.
  - reflexivity.
Qed.

(** C3 at two bodies that are valid JSON and hold neither key, the number 5
    and the array of the two key names: no 400 is returned, the handler
    raises [TypeError], on the membership test for the number and on the
    subscription for the array. *)
Theorem non_object_body_raises (json_loads : string -> result pyval)
    (w : world) :
  agentProxy json_loads w (mk_request "POST" (Some (PInt 5)))
  = ([], Raise (mk_exn TypeError "argument of type 'int' is not iterable"))
  /\ agentProxy json_loads w
       (mk_request "POST" (Some (PList [PStr "query"; PStr "constraint"])))
     = ([], Raise (mk_exn TypeError
                     "list indices must be integers or slices, not str")).
Proof. split; reflexivity. Qed.

(** C5.  A validated POST in a deployment where VERTEX_AGENT_ID is unset or
    empty is answered with 500 and the Configuration Error body, and the run
    has no event: no credential lookup, no session, no POST. *)
Theorem missing_agent_id_gives_500 (json_loads : string -> result pyval)
    (w : world) (req : request) (q c : pyval) :
  validated req q c ->
  environ_get w "VERTEX_AGENT_ID" = None
  \/ environ_get w "VERTEX_AGENT_ID" = Some "" ->
  agentProxy json_loads w req
  = ([], Return (Response (json_dumps configuration_error) 500 headers))
  /\ contains (json_dumps configuration_error) "Configuration Error" = true.
Proof.
  intros Hv He. split; [|reflexivity].
  destruct (validated_passes req q c Hv) as (V & Q & C).
  destruct Hv as (Hm & _).
  unfold agentProxy. rewrite Hm. cbn [String.eqb Ascii.eqb Bool.eqb negb].
  rewrite V. unfold bind at 1. unfold lift at 1.
  rewrite Q. unfold bind at 1. unfold lift at 1.
  rewrite C. unfold bind at 1. unfold lift at 1.
  destruct He as [-> | ->]; reflexivity.
Qed.

Lemma missing_agent_id_gives_500_witness :
  agentProxy sample_loads
    (sample_world None (Return (sample_reply 200 (Return (PDict [])))))
    sample_post
  = ([], Return (Response (json_dumps configuration_error) 500 headers)).
Proof.
  apply (missing_agent_id_gives_500 sample_loads
           (sample_world None (Return (sample_reply 200 (Return (PDict [])))))
           sample_post (PStr "lentil soup") (PStr "")).
  - split; [reflexivity|]. eexists. repeat split; reflexivity.
  - left. reflexivity.
Defined.

(** ** What every returned response satisfies *)

Section Invariants.

Variable P : response -> Prop.

Lemma every_ret (r : response) : P r -> every_response P (ret r).
Proof. intros H t r' E. injection E as _ <-. exact H. Qed.

Lemma every_bind {A : Type} (m : M A) (k : A -> M response) :
  (forall a, every_response P (k a)) -> every_response P (bind m k).
Proof.
  intros H t r E. unfold bind in E. destruct m as [t0 [a|e]].
  - destruct (k a) as [t1 r1] eqn:K. injection E as _ ->.
    exact (H a t1 r K).
  - discriminate.
Qed.

Lemma every_try (m : M response) (catches : exn -> bool)
    (handler : exn -> M response) :
  every_response P m -> (forall e, every_response P (handler e)) ->
  every_response P (try_except m catches handler).
Proof.
  intros Hm Hh t r E. unfold try_except in E. destruct m as [t0 [r0|e]].
  - exact (Hm t r E).
  - destruct (catches e); [|discriminate].
    destruct (handler e) as [t1 r1] eqn:K. injection E as _ ->.
    exact (Hh e t1 r K).
Qed.

End Invariants.

Section HandlerInvariants.

Variable json_loads : string -> result pyval.

Lemma process_response_200 (resp : http_response) :
  every_response (json_with_status 200) (process_response json_loads resp).
Proof.
  unfold process_response.
  apply every_bind; intros _. apply every_bind; intros response_data.
  apply every_bind; intros [|].
  - apply every_bind; intros output. apply every_try.
    + apply every_bind; intros v. apply every_ret. now split.
    + intros _. apply every_ret. now split.
  - apply every_ret. now split.
Qed.

Lemma upstream_failure_500 (u : string) (resp : option http_response)
    (e : exn) :
  every_response (json_with_status 500) (upstream_failure u resp e).
Proof.
  unfold upstream_failure. apply every_bind; intros _.
  apply every_ret. now split.
Qed.

Lemma json_with_status_headed (code : Z) (m : M response) :
  every_response (json_with_status code) m -> every_response json_headed m.
Proof. intros H t r E. exact (proj2 (H t r E)). Qed.

Lemma call_agent_headed (w : world) (u : string) (b : pyval) :
  every_response json_headed (call_agent json_loads w u b).
Proof.
  unfold call_agent. apply every_bind; intros _.
  destruct (session_post w u b) as [resp|e].
  - apply every_try.
    + eapply json_with_status_headed, process_response_200.
    + intros e. eapply json_with_status_headed, upstream_failure_500.
  - eapply json_with_status_headed, upstream_failure_500.
Qed.

(** Every response to a POST carries the JSON header pair. *)
Lemma post_response_headed (w : world) (req : request) :
  method req = "POST" ->
  every_response json_headed (agentProxy json_loads w req).
Proof.
  intros Hm. unfold agentProxy. rewrite Hm.
  cbn [String.eqb Ascii.eqb Bool.eqb negb].
  apply every_bind; intros [|].
  - apply every_ret. reflexivity.
  - apply every_bind; intros q. apply every_bind; intros c.
    destruct (environ_get w "VERTEX_AGENT_ID") as [[|a e]|];
      try (apply every_ret; reflexivity).
    apply every_bind; intros _. apply every_bind; intros _.
    apply every_bind; intros _. apply every_bind; intros _.
    apply call_agent_headed.
Qed.

(** A reply that is let through ends in 200 or, when the handling raises,
    in 500. *)
Lemma handled_reply_200_or_500 (u : string) (resp : http_response) :
  let status := option_map resp_status
                  (returned (try_except (process_response json_loads resp)
                               catches_exception
                               (upstream_failure u (Some resp)))) in
  status = Some 200 \/ status = Some 500.
Proof.
  intros status. subst status.
  destruct (process_response json_loads resp) as [t [r|e]] eqn:E.
  - left. unfold try_except, returned. simpl.
    now rewrite (proj1 (process_response_200 resp t r E)).
  - right.
    destruct (caught_gives_500 u resp _ t e eq_refl) as [body ->].
    reflexivity.
Qed.

End HandlerInvariants.

Lemma object_reply_cases (json_loads : string -> result pyval)
    (d : list (string * pyval)) :
  if parser_escapes json_loads d
  then exists e, object_reply_value json_loads d = Raise e
  else exists v, object_reply_value json_loads d = Return v.
Proof.
  unfold parser_escapes, object_reply_value.
  destruct (dict_get d "output") as [[|b|z|s|l|d']|]; try (eexists; reflexivity).
  destruct (has_brace_span s); [|eexists; reflexivity].
  destruct (json_loads (brace_span s)) as [v|e]; [eexists; reflexivity|].
  cbn [andb]. destruct (catches_decode_or_type e); eexists; reflexivity.
Qed.

(** C1, as amended.  For a request that reaches the agent: a reply whose
    status is outside 400..599 and whose body is a JSON object gives 200,
    unless its output is a string on whose span the parser raises an
    exception that is neither a [JSONDecodeError] nor a [TypeError], which
    gives 500; a POST that raises, a status within 400..599 and a body that
    is no JSON give 500; a JSON body that is no object gives 200 or 500. *)
Theorem upstream_reply_decides_status (json_loads : string -> result pyval)
    (w : world) (req : request) (q c : pyval) (endpoint : string) :
  reaches_agent w req q c endpoint ->
  let status := returned_status (agentProxy json_loads w req) in
  match upstream_reply w q c endpoint with
  | Raise _ => status = Some 500
  | Return resp =>
      if status_ok resp then
        match json resp with
        | Raise _ => status = Some 500
        | Return (PDict d) =>
            if parser_escapes json_loads d then status = Some 500
            else status = Some 200
        | Return _ => status = Some 200 \/ status = Some 500
        end
      else status = Some 500
  end.
Proof.
  intros Hr status. subst status. unfold returned_status.
  rewrite (returned_reaches_call json_loads w req q c endpoint Hr).
  unfold upstream_reply.
  destruct (session_post w (api_url endpoint)
              (agent_request_body q c (uuid4_str w))) as [resp|e] eqn:Post.
  - rewrite (call_agent_process json_loads _ _ _ resp Post).
    destruct (status_ok resp) eqn:S.
    + destruct (json resp) as [v|e] eqn:J.
      * destruct v as [|b|z|s|l|d];
          try apply (handled_reply_200_or_500 json_loads).
        pose proof (object_reply_cases json_loads d) as Hc.
        pose proof (process_response_object json_loads resp d S J) as Ho.
        destruct (parser_escapes json_loads d); destruct Hc as [x Hx];
          rewrite Hx in Ho.
        -- destruct (caught_gives_500 (api_url endpoint) resp _ [] x Ho)
             as [body ->].
           reflexivity.
        -- now rewrite Ho.
      * destruct (caught_gives_500 (api_url endpoint) resp _ []
                    e (process_response_bad_json json_loads resp e S J))
          as [body ->].
        reflexivity.
    + destruct (process_response_bad_status json_loads resp S) as [e E].
      destruct (caught_gives_500 (api_url endpoint) resp _ [] e E)
        as [body ->].
      reflexivity.
  - destruct (call_agent_raises json_loads w _ _ e Post) as [body ->].
    reflexivity.
Qed.

(** The sample request reaches the agent in a sample deployment that has
    an agent id. *)
Lemma sample_reaches_agent (answer : result http_response) :
  reaches_agent (sample_world (Some "agents/7") answer) sample_post
    (PStr "lentil soup") (PStr "") "agents/7".
Proof.
  repeat split; try reflexivity.
  - eexists. repeat split; reflexivity.
  - discriminate.
Qed.

Lemma upstream_reply_decides_status_witness :
  returned_status
    (agentProxy sample_loads
       (sample_world (Some "agents/7")
          (Return (sample_reply 200
                     (Return (PDict [("unrelated", PInt 1)])))))
       sample_post)
  = Some 200
  /\ returned_status
       (agentProxy sample_loads
          (sample_world (Some "agents/7")
             (Return (sample_reply 200
                        (Return (PDict [("output",
                                         PStr "{[[[[[[[[[[ ... ]]]]]]]]]]}")])))))
          sample_post)
     = Some 500.
Proof.
  split.
  - apply (upstream_reply_decides_status sample_loads
             (sample_world (Some "agents/7")
                (Return (sample_reply 200
                           (Return (PDict [("unrelated", PInt 1)])))))
             sample_post (PStr "lentil soup") (PStr "") "agents/7").
    apply sample_reaches_agent.
  - apply (upstream_reply_decides_status sample_loads
             (sample_world (Some "agents/7")
                (Return (sample_reply 200
                           (Return (PDict [("output",
                                            PStr "{[[[[[[[[[[ ... ]]]]]]]]]]}")])))))
             sample_post (PStr "lentil soup") (PStr "") "agents/7").
    apply sample_reaches_agent.
Defined.

(** C1 as stated fails: a reply with status 200 whose body is no JSON is
    answered with 500. *)
Lemma non_json_reply_counterexample :
  let reply :=
    sample_reply 200
      (Raise (mk_exn JSONDecodeError
                "Expecting value: line 1 column 1 (char 0)")) in
  status_code reply = 200
  /\ returned_status
       (agentProxy sample_loads (sample_world (Some "agents/7") (Return reply))
          sample_post)
     = Some 500.
Proof. split; reflexivity. Qed.

Lemma has_brace_span_true (s : string) :
  has_brace_span s = true ->
  find s "{" <> -1 /\ rfind s "}" <> -1 /\ find s "{" < rfind s "}".
Proof.
  unfold has_brace_span. intros H.
  apply andb_prop in H as [H H3]. apply andb_prop in H as [H1 H2].
  apply negb_true_iff, Z.eqb_neq in H1.
  apply negb_true_iff, Z.eqb_neq in H2.
  apply Z.gtb_lt in H3. auto.
Qed.

(** C4, as amended.  An output string with no opening brace, no closing
    brace, its last closing brace not after its first opening brace, or a
    span the parser rejects with a [JSONDecodeError], is answered with 200
    and the object of the output as [response] and [Agent returned
    unparsable text response] as [note]. *)
Theorem unparsable_output_falls_back (json_loads : string -> result pyval)
    (w : world) (req : request) (q c : pyval) (endpoint : string)
    (resp : http_response) (d : list (string * pyval)) (s : string) :
  reaches_agent w req q c endpoint ->
  upstream_reply w q c endpoint = Return resp ->
  status_ok resp = true ->
  json resp = Return (PDict d) ->
  dict_get d "output" = Some (PStr s) ->
  find s "{" = -1 \/ rfind s "}" = -1 \/ rfind s "}" <= find s "{"
  \/ (exists e, json_loads (brace_span s) = Raise e
                /\ exn_cls e = JSONDecodeError) ->
  returned (agentProxy json_loads w req)
  = Some (Response
            (json_dumps
               (PDict [ ("response", PStr s);
                        ("note", PStr "Agent returned unparsable text response") ]))
            200 headers).
Proof.
  intros Hr Hp Hs Hj Ho Hbad.
  apply (returned_object_reply json_loads w req q c endpoint resp d _
           Hr Hp Hs Hj).
  unfold object_reply_value. rewrite Ho.
  destruct (has_brace_span s) eqn:B; [|reflexivity].
  apply has_brace_span_true in B as (B1 & B2 & B3).
  destruct Hbad as [H|[H|[H|(e & H & He)]]]; try lia.
  rewrite H. unfold catches_decode_or_type. now rewrite He.
Qed.

Lemma unparsable_output_falls_back_witness :
  returned
    (agentProxy sample_loads
       (sample_world (Some "agents/7")
          (Return (sample_reply 200
                     (Return (PDict [("output", PStr "} then {")])))))
       sample_post)
  = Some (Response
            (json_dumps
               (PDict [ ("response", PStr "} then {");
                        ("note", PStr "Agent returned unparsable text response") ]))
            200 headers)
  /\ returned
       (agentProxy sample_loads
          (sample_world (Some "agents/7")
             (Return (sample_reply 200
                        (Return (PDict [("output", PStr "so {plan} it is")])))))
          sample_post)
     = Some (Response
               (json_dumps
                  (PDict [ ("response", PStr "so {plan} it is");
                           ("note", PStr "Agent returned unparsable text response") ]))
               200 headers).
Proof.
  split.
  - apply (unparsable_output_falls_back sample_loads
             (sample_world (Some "agents/7")
                (Return (sample_reply 200
                           (Return (PDict [("output", PStr "} then {")])))))
             sample_post (PStr "lentil soup") (PStr "") "agents/7"
             (sample_reply 200 (Return (PDict [("output", PStr "} then {")])))
             [("output", PStr "} then {")] "} then {").
    + apply sample_reaches_agent.
    + reflexivity.
    + reflexivity.
    + reflexivity.
    + reflexivity.
    + right. right. left. vm_compute. discriminate.
  - apply (unparsable_output_falls_back sample_loads
             (sample_world (Some "agents/7")
                (Return (sample_reply 200
                           (Return (PDict [("output",
                                            PStr "so {plan} it is")])))))
             sample_post (PStr "lentil soup") (PStr "") "agents/7"
             (sample_reply 200
                (Return (PDict [("output", PStr "so {plan} it is")])))
             [("output", PStr "so {plan} it is")] "so {plan} it is").
    + apply sample_reaches_agent.
    + reflexivity.
    + reflexivity.
    + reflexivity.
    + reflexivity.
    + right. right. right. eexists. split; reflexivity.
Defined.

(** C4 as stated fails: the note of the fallback body starts with a capital
    letter, so the body is not the one the claim spells out. *)
Lemma fallback_note_counterexample :
  exists r,
    returned
      (agentProxy sample_loads
         (sample_world (Some "agents/7")
            (Return (sample_reply 200
                       (Return (PDict [("output", PStr "plain text")])))))
         sample_post)
    = Some r
    /\ resp_status r = 200
    /\ resp_body r <> json_dumps (claimed_fallback_body "plain text").
Proof.
  eexists. split; [reflexivity|]. split; [reflexivity|].
  vm_compute. discriminate.
Qed.

(** C10.  What the extraction yields is serialised and returned with 200 as
    it is, whatever keys it has: the value the parser gives on the span of
    an output string, and an output that is not a string. *)
Theorem extracted_value_returned_unchecked
    (json_loads : string -> result pyval)
    (w : world) (req : request) (q c : pyval) (endpoint : string)
    (resp : http_response) (d : list (string * pyval)) (output : pyval) :
  reaches_agent w req q c endpoint ->
  upstream_reply w q c endpoint = Return resp ->
  status_ok resp = true ->
  json resp = Return (PDict d) ->
  dict_get d "output" = Some output ->
  (is_str output = false ->
   returned (agentProxy json_loads w req)
   = Some (Response (json_dumps output) 200 headers))
  /\ (forall s v,
        output = PStr s -> has_brace_span s = true ->
        json_loads (brace_span s) = Return v ->
        returned (agentProxy json_loads w req)
        = Some (Response (json_dumps v) 200 headers)).
Proof.
  intros Hr Hp Hs Hj Ho. split.
  - intros Hn.
    apply (returned_object_reply json_loads w req q c endpoint resp d output
             Hr Hp Hs Hj).
    unfold object_reply_value. rewrite Ho.
    destruct output; try reflexivity. discriminate.
  - intros s v -> B L.
    apply (returned_object_reply json_loads w req q c endpoint resp d v
             Hr Hp Hs Hj).
    unfold object_reply_value. now rewrite Ho, B, L.
Qed.

Lemma extracted_value_returned_unchecked_witness :
  returned
    (agentProxy sample_loads
       (sample_world (Some "agents/7")
          (Return (sample_reply 200
                     (Return (PDict [("output", PStr "Here: {} Bye.")])))))
       sample_post)
  = Some (Response "{}" 200 headers)
  /\ returned
       (agentProxy sample_loads
          (sample_world (Some "agents/7")
             (Return (sample_reply 200
                        (Return (PDict [("output", PList [PInt 1; PNone])])))))
          sample_post)
     = Some (Response "[1, null]" 200 headers).
Proof.
  split.
  - destruct (extracted_value_returned_unchecked sample_loads
                (sample_world (Some "agents/7")
                   (Return (sample_reply 200
                      (Return (PDict [("output", PStr "Here: {} Bye.")])))))
                sample_post (PStr "lentil soup") (PStr "") "agents/7"
                (sample_reply 200
                   (Return (PDict [("output", PStr "Here: {} Bye.")])))
                [("output", PStr "Here: {} Bye.")] (PStr "Here: {} Bye.")
                (sample_reaches_agent _) eq_refl eq_refl eq_refl eq_refl)
      as [_ H].
    apply (H "Here: {} Bye." (PDict [])); reflexivity.
  - destruct (extracted_value_returned_unchecked sample_loads
                (sample_world (Some "agents/7")
                   (Return (sample_reply 200
                      (Return (PDict [("output", PList [PInt 1; PNone])])))))
                sample_post (PStr "lentil soup") (PStr "") "agents/7"
                (sample_reply 200
                   (Return (PDict [("output", PList [PInt 1; PNone])])))
                [("output", PList [PInt 1; PNone])] (PList [PInt 1; PNone])
                (sample_reaches_agent _) eq_refl eq_refl eq_refl eq_refl)
      as [H _].
    apply H. reflexivity.
Defined.

(** C8, as amended.  A response to a POST carries Content-Type:
    application/json and Access-Control-Allow-Origin: *.  The OPTIONS reply
    is empty, has status 200 and carries the allow-origin header with the
    other two CORS headers, and no JSON content type.  The reply to any
    other method is the 405 and carries neither header. *)
Theorem response_headers_by_method (json_loads : string -> result pyval)
    (w : world) (req : request) (t : list event) (r : response) :
  agentProxy json_loads w req = (t, Return r) ->
  (method req = "POST" ->
   header "Content-Type" r = Some "application/json"
   /\ header "Access-Control-Allow-Origin" r = Some "*")
  /\ (method req = "OPTIONS" ->
      r = Response "" 200 cors_preflight_headers
      /\ header "Access-Control-Allow-Origin" r = Some "*"
      /\ header "Content-Type" r <> Some "application/json")
  /\ (method req <> "POST" -> method req <> "OPTIONS" ->
      r = Response "Method Not Allowed" 405 []
      /\ header "Access-Control-Allow-Origin" r = None
      /\ header "Content-Type" r <> Some "application/json").
Proof.
  intros E. split; [|split].
  - intros Hm.
    pose proof (post_response_headed json_loads w req Hm t r E) as Hh.
    unfold header. rewrite Hh. split; reflexivity.
  - intros Hm. unfold agentProxy in E. rewrite Hm in E. simpl in E.
    injection E as _ <-. repeat split. discriminate.
  - intros Hp Ho. unfold agentProxy in E.
    apply String.eqb_neq in Hp, Ho. rewrite Hp, Ho in E. simpl in E.
    injection E as _ <-. repeat split. discriminate.
Qed.

Lemma response_headers_by_method_witness :
  header "Content-Type"
    (Response (json_dumps missing_keys_error) 400 headers)
  = Some "application/json"
  /\ header "Access-Control-Allow-Origin"
       (Response (json_dumps missing_keys_error) 400 headers)
     = Some "*".
Proof.
  destruct (response_headers_by_method sample_loads
              (sample_world None (Raise (mk_exn OtherException "unreachable")))
              (mk_request "POST" None) []
              (Response (json_dumps missing_keys_error) 400 headers))
    as (H & _ & _).
  - reflexivity.
  - apply H. reflexivity.
Defined.

(** C8 as stated fails: the reply to a GET is the 405, which carries no
    Access-Control-Allow-Origin header and no JSON content type. *)
Lemma method_not_allowed_counterexample :
  exists r,
    agentProxy sample_loads
      (sample_world None (Raise (mk_exn OtherException "unreachable")))
      (mk_request "GET" None)
    = ([], Return r)
    /\ resp_status r = 405
    /\ header "Access-Control-Allow-Origin" r = None
    /\ header "Content-Type" r <> Some "application/json".
Proof.
  eexists. repeat split; try reflexivity. vm_compute. discriminate.
Qed.

(** * Further properties of the handler *)

Section Runs.

Variable json_loads : string -> result pyval.

Lemma lift_silent {A : Type} (r : result A) : fst (lift r) = [].
Proof. reflexivity. Qed.

Lemma bind_silent {A B : Type} (m : M A) (k : A -> M B) :
  fst m = [] -> (forall a, fst (k a) = []) -> fst (bind m k) = [].
Proof.
  intros Hm Hk. unfold bind. destruct m as [t [a|e]]; simpl in *.
  - specialize (Hk a). destruct (k a) as [t' r]. simpl in *. now subst.
  - exact Hm.
Qed.

Lemma try_silent {A : Type} (m : M A) (catches : exn -> bool)
    (handler : exn -> M A) :
  fst m = [] -> (forall e, fst (handler e) = []) ->
  fst (try_except m catches handler) = [].
Proof.
  intros Hm Hh. unfold try_except. destruct m as [t [a|e]]; simpl in *.
  - exact Hm.
  - destruct (catches e); [|exact Hm].
    specialize (Hh e). destruct (handler e) as [t' r]. simpl in *. now subst.
Qed.

(** Handling a reply logs nothing. *)
Lemma process_response_silent (resp : http_response) :
  fst (process_response json_loads resp) = [].
Proof.
  unfold process_response.
  apply bind_silent; [reflexivity | intros _].
  apply bind_silent; [reflexivity | intros response_data].
  apply bind_silent; [reflexivity | intros [|]]; [|reflexivity].
  apply bind_silent; [reflexivity | intros output].
  apply try_silent; [|reflexivity].
  apply bind_silent; [reflexivity | reflexivity].
Qed.

(** The upstream call: one POST, then either a 200 and nothing more, or the
    failure line and a 500. *)
Lemma call_agent_run (w : world) (u : string) (b : pyval) :
  exists r t,
    call_agent json_loads w u b = (HttpPost u b :: t, Return r)
    /\ ((resp_status r = 200 /\ t = [])
        \/ (resp_status r = 500
            /\ exists msg,
                 t = [Print ("API Call to Agent Engine failed: " ++ msg)])).
Proof.
  unfold call_agent. unfold bind at 1, emit.
  destruct (session_post w u b) as [resp|e].
  - pose proof (process_response_silent resp) as Hs.
    destruct (process_response json_loads resp) as [t [r|e]] eqn:E;
      simpl in Hs; subst t.
    + exists r, []. split; [reflexivity|]. left. split; [|reflexivity].
      exact (proj1 (process_response_200 json_loads resp [] r E)).
    + eexists _, _. split; [reflexivity|]. right. split; [reflexivity|].
      now exists (exn_msg e).
  - eexists _, _. split; [reflexivity|]. right. split; [reflexivity|].
    now exists (exn_msg e).
Qed.

(** How far a run gets: it logs nothing, or it stops at the credential
    lookup, or the request reaches the agent. *)
Lemma agentProxy_run_cases (w : world) (req : request) :
  fst (agentProxy json_loads w req) = []
  \/ fst (agentProxy json_loads w req) = [AuthDefault]
  \/ exists q c endpoint, reaches_agent w req q c endpoint.
Proof.
  unfold agentProxy.
  destruct (String.eqb (method req) "OPTIONS"); [now left|].
  destruct (String.eqb_spec (method req) "POST") as [Hm|Hm];
    cbn [negb]; [|now left].
  destruct (validation_fails (get_json_silent req)) as [[|]|e] eqn:V;
    try (now left).
  unfold bind at 1, lift at 1.
  destruct (py_getitem (get_json_silent req) "query") as [q|e] eqn:Q;
    [|now left].
  unfold bind at 1, lift at 1.
  destruct (py_getitem (get_json_silent req) "constraint") as [c|e] eqn:C;
    [|now left].
  unfold bind at 1, lift at 1.
  destruct (environ_get w "VERTEX_AGENT_ID") as [[|a ep]|] eqn:En;
    try (now left).
  destruct (auth_default w) as [[]|e] eqn:Au; [|right; now left].
  right; right. exists q, c, (String a ep).
  unfold get_json_silent in Q, C.
  destruct (body_json req) as [[| | | | |d]|] eqn:B; try discriminate.
  simpl in Q, C.
  destruct (dict_get d "query") as [q'|] eqn:Dq; [|discriminate].
  destruct (dict_get d "constraint") as [c'|] eqn:Dc; [|discriminate].
  injection Q as ->. injection C as ->.
  repeat split; try assumption; [|discriminate].
  exists d. repeat split; assumption.
Qed.

End Runs.

(** X1.  A POST whose body is no JSON, is a falsy JSON value (null, false,
    0, the empty string, array or object) or is an object that lacks one of
    the two keys is answered with the 400 before anything else is looked at:
    the run has no event, whatever the deployment. *)
Theorem invalid_body_rejected_first (json_loads : string -> result pyval)
    (w : world) (req : request) :
  method req = "POST" ->
  py_truthy (get_json_silent req) = false
  \/ (exists d, body_json req = Some (PDict d)
                /\ (dict_get d "query" = None
                    \/ dict_get d "constraint" = None)) ->
  agentProxy json_loads w req
  = ([], Return (Response (json_dumps missing_keys_error) 400 headers)).
Proof.
  intros Hm [H|H].
  - unfold agentProxy. rewrite Hm. cbn [String.eqb Ascii.eqb Bool.eqb negb].
    unfold validation_fails. rewrite H. reflexivity.
  - apply missing_key_gives_400; [exact Hm | now right].
Qed.

Lemma invalid_body_rejected_first_witness :
  agentProxy sample_loads
    (sample_world None (Raise (mk_exn OtherException "unreachable")))
    (mk_request "POST" (Some (PList [])))
  = ([], Return (Response (json_dumps missing_keys_error) 400 headers)).
Proof.
  apply invalid_body_rejected_first; [reflexivity | left; reflexivity].
Defined.

(** X2.  A POST whose body is JSON but no object never gets past the
    validation: the run has no event and ends in the 400 or in a
    [TypeError]. *)
Theorem non_object_body_stops_at_validation
    (json_loads : string -> result pyval) (w : world) (req : request)
    (v : pyval) :
  method req = "POST" ->
  body_json req = Some v ->
  (forall d, v <> PDict d) ->
  fst (agentProxy json_loads w req) = []
  /\ (snd (agentProxy json_loads w req)
      = Return (Response (json_dumps missing_keys_error) 400 headers)
      \/ exists msg,
           snd (agentProxy json_loads w req) = Raise (mk_exn TypeError msg)).
Proof.
  intros Hm Hb Hv. unfold agentProxy. rewrite Hm.
  cbn [String.eqb Ascii.eqb Bool.eqb negb].
  unfold get_json_silent. rewrite Hb. unfold validation_fails.
  destruct v as [|b|z|s|l|d].
  - split; [reflexivity | now left].
  - destruct b; cbn.
    + split; [reflexivity | right; eexists; reflexivity].
    + split; [reflexivity | now left].
  - cbn [py_truthy]. destruct (z =? 0); cbn.
    + split; [reflexivity | now left].
    + split; [reflexivity | right; eexists; reflexivity].
  - cbn [py_truthy]. destruct (String.eqb s ""); cbn [negb].
    + split; [reflexivity | now left].
    + cbn [all_in py_in].
      destruct (contains s "query"); [|split; [reflexivity | now left]].
      destruct (contains s "constraint");
        [|split; [reflexivity | now left]].
      split; [reflexivity | right; eexists; reflexivity].
  - cbn [py_truthy]. destruct l as [|x l].
    + split; [reflexivity | now left].
    + cbn [negb all_in py_in].
      destruct (existsb _ (x :: l));
        [|split; [reflexivity | now left]].
      destruct (existsb _ (x :: l));
        [|split; [reflexivity | now left]].
      split; [reflexivity | right; eexists; reflexivity].
  - now elim (Hv d).
Qed.

Lemma non_object_body_stops_at_validation_witness :
  fst (agentProxy sample_loads
         (sample_world (Some "agents/7")
            (Return (sample_reply 200 (Return (PDict [])))))
         (mk_request "POST" (Some (PStr "a query under a constraint"))))
  = [].
Proof.
  apply (non_object_body_stops_at_validation sample_loads
           (sample_world (Some "agents/7")
              (Return (sample_reply 200 (Return (PDict [])))))
           (mk_request "POST" (Some (PStr "a query under a constraint")))
           (PStr "a query under a constraint"));
    [reflexivity | reflexivity | discriminate].
Defined.

(** The events of a run that reaches the agent. *)
Lemma reaching_run_cases_helper (json_loads : string -> result pyval)
    (w : world) (req : request) (q c : pyval) (endpoint : string) :
  reaches_agent w req q c endpoint ->
  exists t,
    fst (agentProxy json_loads w req)
    = (call_events endpoint q c (uuid4_str w) ++ t)%list
    /\ (t = []
        \/ exists msg,
             t = [Print ("API Call to Agent Engine failed: " ++ msg)]).
Proof.
  intros Hr. rewrite (agentProxy_reaches_call json_loads w req q c endpoint Hr).
  destruct (call_agent_run json_loads w (api_url endpoint)
              (agent_request_body q c (uuid4_str w))) as (r & t & -> & H).
  exists t. split; [reflexivity|].
  destruct H as [[_ ->]|[_ H]]; [now left | now right].
Qed.

(** X3.  A request that reaches the agent always gets a response, after
    exactly one POST to the agent's address with the envelope of the prompt
    and the session id: either a 200 and no further event, or a 500 after
    the line that reports the failure.  Nothing is tried twice. *)
Theorem reaching_run_posts_once (json_loads : string -> result pyval)
    (w : world) (req : request) (q c : pyval) (endpoint : string) :
  reaches_agent w req q c endpoint ->
  exists r t,
    agentProxy json_loads w req
    = ((call_events endpoint q c (uuid4_str w) ++ t)%list, Return r)
    /\ ((resp_status r = 200 /\ t = [])
        \/ (resp_status r = 500
            /\ exists msg,
                 t = [Print ("API Call to Agent Engine failed: " ++ msg)])).
Proof.
  intros Hr. rewrite (agentProxy_reaches_call json_loads w req q c endpoint Hr).
  destruct (call_agent_run json_loads w (api_url endpoint)
              (agent_request_body q c (uuid4_str w))) as (r & t & -> & H).
  exists r, t. split; [reflexivity | exact H].
Qed.

Lemma reaching_run_posts_once_witness :
  exists r t,
    agentProxy sample_loads
      (sample_world (Some "agents/7")
         (Raise (mk_exn OtherException "connection refused")))
      sample_post
    = ((call_events "agents/7" (PStr "lentil soup") (PStr "") "sid-1" ++ t)%list,
       Return r).
Proof.
  destruct (reaching_run_posts_once sample_loads
              (sample_world (Some "agents/7")
                 (Raise (mk_exn OtherException "connection refused")))
              sample_post (PStr "lentil soup") (PStr "") "agents/7"
              (sample_reaches_agent _)) as (r & t & H & _).
  exists r, t. exact H.
Defined.

(** X4.  A run posts to the upstream only for a request that reaches the
    agent, and then to the base address followed by the agent id and
    [:query], with the envelope built from the request's own query and
    constraint and the run's session id. *)
Theorem post_only_after_checks (json_loads : string -> result pyval)
    (w : world) (req : request) (u : string) (b : pyval) :
  In (HttpPost u b) (fst (agentProxy json_loads w req)) ->
  exists q c endpoint,
    reaches_agent w req q c endpoint
    /\ u = api_url endpoint
    /\ b = agent_request_body q c (uuid4_str w).
Proof.
  intros Hin.
  destruct (agentProxy_run_cases json_loads w req)
    as [E|[E|(q & c & endpoint & Hr)]].
  - rewrite E in Hin. contradiction.
  - rewrite E in Hin. destruct Hin as [H|[]]. discriminate.
  - exists q, c, endpoint. split; [exact Hr|].
    destruct (reaching_run_cases_helper json_loads w req q c endpoint Hr)
      as (t & E & Ht).
    rewrite E in Hin. cbn [fst call_events app In] in Hin.
    destruct Hin as [H|[H|[H|[H|H]]]]; try discriminate.
    + injection H as <- <-. split; reflexivity.
    + destruct Ht as [->|[msg ->]]; [contradiction|].
      destruct H as [H|[]]. discriminate.
Qed.

Lemma post_only_after_checks_witness :
  exists q c endpoint,
    reaches_agent
      (sample_world (Some "agents/7")
         (Return (sample_reply 200 (Return (PDict [])))))
      sample_post q c endpoint
    /\ api_url "agents/7" = api_url endpoint
    /\ agent_request_body (PStr "lentil soup") (PStr "") "sid-1"
       = agent_request_body q c "sid-1".
Proof.
  apply (post_only_after_checks sample_loads
           (sample_world (Some "agents/7")
              (Return (sample_reply 200 (Return (PDict [])))))
           sample_post (api_url "agents/7")
           (agent_request_body (PStr "lentil soup") (PStr "") "sid-1")).
  simpl. right. right. right. left. reflexivity.
Defined.

(** X5.  When the POST itself raises, the 500 body holds the fixed error
    text, the text of the exception as [details] and the address that was
    called as [api_url], and no [api_response]. *)
Theorem transport_failure_body (json_loads : string -> result pyval)
    (w : world) (req : request) (q c : pyval) (endpoint : string) (e : exn) :
  reaches_agent w req q c endpoint ->
  upstream_reply w q c endpoint = Raise e ->
  returned (agentProxy json_loads w req)
  = Some (Response
            (json_dumps (upstream_error (exn_msg e) (api_url endpoint) None))
            500 headers).
Proof.
  intros Hr Hp.
  rewrite (returned_reaches_call json_loads w req q c endpoint Hr).
  unfold upstream_reply in Hp.
  unfold call_agent, returned, bind, emit. rewrite Hp. reflexivity.
Qed.

Lemma transport_failure_body_witness :
  returned
    (agentProxy sample_loads
       (sample_world (Some "agents/7")
          (Raise (mk_exn OtherException "connection refused")))
       sample_post)
  = Some (Response
            (json_dumps
               (upstream_error "connection refused" (api_url "agents/7") None))
            500 headers).
Proof.
  apply (transport_failure_body sample_loads
           (sample_world (Some "agents/7")
              (Raise (mk_exn OtherException "connection refused")))
           sample_post (PStr "lentil soup") (PStr "") "agents/7"
           (mk_exn OtherException "connection refused")
           (sample_reaches_agent _)).
  reflexivity.
Defined.

Lemma raise_for_status_text (resp : http_response) :
  status_ok resp = false ->
  raise_for_status resp = Raise (mk_exn HTTPError (http_error_text resp)).
Proof.
  unfold status_ok, raise_for_status, http_error_text. intros H.
  apply negb_false_iff in H.
  destruct (400 <=? status_code resp) eqn:A;
    destruct (status_code resp <? 500) eqn:B;
    destruct (500 <=? status_code resp) eqn:C;
    destruct (status_code resp <? 600) eqn:D; simpl in *;
    try discriminate; try reflexivity; lia.
Qed.

(** X6.  When a reply came back and is refused, the 500 body also holds
    the reply's text as [api_response]: for a status within 400..599 the
    details read [<status> Client Error: <reason> for url: <url>] (Server
    Error from 500 on), for a body that is no JSON they are the text of the
    decoding exception. *)
Theorem refused_reply_body (json_loads : string -> result pyval)
    (w : world) (req : request) (q c : pyval) (endpoint : string)
    (resp : http_response) :
  reaches_agent w req q c endpoint ->
  upstream_reply w q c endpoint = Return resp ->
  (status_ok resp = false ->
   returned (agentProxy json_loads w req)
   = Some (Response
             (json_dumps (upstream_error (http_error_text resp)
                            (api_url endpoint) (Some (text resp))))
             500 headers))
  /\ (forall e, status_ok resp = true -> json resp = Raise e ->
      returned (agentProxy json_loads w req)
      = Some (Response
                (json_dumps (upstream_error (exn_msg e)
                               (api_url endpoint) (Some (text resp))))
                500 headers)).
Proof.
  intros Hr Hp.
  rewrite (returned_reaches_call json_loads w req q c endpoint Hr).
  rewrite (call_agent_process json_loads _ _ _ resp Hp). split.
  - intros Hs. unfold process_response. unfold bind at 1, lift at 1.
    rewrite (raise_for_status_text resp Hs). reflexivity.
  - intros e Hs Hj.
    rewrite (process_response_bad_json json_loads resp e Hs Hj). reflexivity.
Qed.

Lemma refused_reply_body_witness :
  returned
    (agentProxy sample_loads
       (sample_world (Some "agents/7")
          (Return (mk_http_response 503 "Service Unavailable"
                     "https://agent.example/q" "try later" (Return PNone))))
       sample_post)
  = Some (Response
            (json_dumps
               (upstream_error
                  "503 Server Error: Service Unavailable for url: https://agent.example/q"
                  (api_url "agents/7") (Some "try later")))
            500 headers).
Proof.
  destruct (refused_reply_body sample_loads
              (sample_world (Some "agents/7")
                 (Return (mk_http_response 503 "Service Unavailable"
                            "https://agent.example/q" "try later"
                            (Return PNone))))
              sample_post (PStr "lentil soup") (PStr "") "agents/7"
              (mk_http_response 503 "Service Unavailable"
                 "https://agent.example/q" "try later" (Return PNone))
              (sample_reaches_agent _) eq_refl) as [H _].
  apply H. reflexivity.
Defined.

(** X7.  A reply of good status whose JSON object has no [output] key is
    answered with 200 and an object that holds the Python text of the whole
    reply object as [response] and [Unexpected response format from agent]
    as [note]. *)
Theorem missing_output_key_body (json_loads : string -> result pyval)
    (w : world) (req : request) (q c : pyval) (endpoint : string)
    (resp : http_response) (d : list (string * pyval)) :
  reaches_agent w req q c endpoint ->
  upstream_reply w q c endpoint = Return resp ->
  status_ok resp = true ->
  json resp = Return (PDict d) ->
  dict_get d "output" = None ->
  returned (agentProxy json_loads w req)
  = Some (Response
            (json_dumps
               (PDict [ ("response", PStr (py_repr (PDict d)));
                        ("note", PStr "Unexpected response format from agent") ]))
            200 headers).
Proof.
  intros Hr Hp Hs Hj Ho.
  apply (returned_object_reply json_loads w req q c endpoint resp d _
           Hr Hp Hs Hj).
  unfold object_reply_value. now rewrite Ho.
Qed.

Lemma missing_output_key_body_witness :
  returned
    (agentProxy sample_loads
       (sample_world (Some "agents/7")
          (Return (sample_reply 200 (Return (PDict [("answer", PInt 3)])))))
       sample_post)
  = Some (Response
            (json_dumps
               (PDict [ ("response", PStr "{'answer': 3}");
                        ("note", PStr "Unexpected response format from agent") ]))
            200 headers).
Proof.
  apply (missing_output_key_body sample_loads
           (sample_world (Some "agents/7")
              (Return (sample_reply 200
                         (Return (PDict [("answer", PInt 3)])))))
           sample_post (PStr "lentil soup") (PStr "") "agents/7"
           (sample_reply 200 (Return (PDict [("answer", PInt 3)])))
           [("answer", PInt 3)] (sample_reaches_agent _));
    reflexivity.
Defined.

(** X8.  When the default credentials cannot be found, the exception of the
    lookup leaves the handler as it is: no response, no session, no POST. *)
Theorem credential_failure_propagates (json_loads : string -> result pyval)
    (w : world) (req : request) (q c : pyval) (endpoint : string) (e : exn) :
  validated req q c ->
  environ_get w "VERTEX_AGENT_ID" = Some endpoint ->
  endpoint <> "" ->
  auth_default w = Raise e ->
  agentProxy json_loads w req = ([AuthDefault], Raise e).
Proof.
  intros Hv He Hne Ha.
  destruct (validated_passes req q c Hv) as (V & Q & C).
  destruct Hv as (Hm & _).
  unfold agentProxy. rewrite Hm. cbn [String.eqb Ascii.eqb Bool.eqb negb].
  rewrite V. unfold bind at 1. unfold lift at 1.
  rewrite Q. unfold bind at 1. unfold lift at 1.
  rewrite C. unfold bind at 1. unfold lift at 1.
  rewrite He. destruct endpoint as [|a ep]; [contradiction|].
  rewrite Ha. reflexivity.
Qed.

Lemma credential_failure_propagates_witness :
  agentProxy sample_loads
    (mk_world (fun _ => Some "agents/7")
       (Raise (mk_exn OtherException "no default credentials"))
       "sid-1" (fun _ _ => Raise (mk_exn OtherException "unreachable")))
    sample_post
  = ([AuthDefault], Raise (mk_exn OtherException "no default credentials")).
Proof.
  apply (credential_failure_propagates sample_loads _ sample_post
           (PStr "lentil soup") (PStr "") "agents/7").
  - split; [reflexivity|]. eexists. repeat split; reflexivity.
  - reflexivity.
  - discriminate.
  - reflexivity.
Defined.

Section Statuses.

Variable json_loads : string -> result pyval.

Lemma json_with_status_weaken (code : Z) (P : response -> Prop)
    (m : M response) :
  (forall r, json_with_status code r -> P r) ->
  every_response (json_with_status code) m -> every_response P m.
Proof. intros HP H t r E. apply HP. exact (H t r E). Qed.

Lemma call_agent_200_or_500 (w : world) (u : string) (b : pyval) :
  every_response (fun r => resp_status r = 200 \/ resp_status r = 500)
    (call_agent json_loads w u b).
Proof.
  intros t r E.
  destruct (call_agent_run json_loads w u b) as (r' & t' & E' & H).
  rewrite E' in E. injection E as _ <-.
  destruct H as [[H _]|[H _]]; auto.
Qed.

End Statuses.

(** X9.  The handler answers with 200, 400, 405 or 500 and with no other
    status; 400 and 500 come to a POST only, and 405 never does. *)
Theorem status_is_one_of_four (json_loads : string -> result pyval)
    (w : world) (req : request) (t : list event) (r : response) :
  agentProxy json_loads w req = (t, Return r) ->
  In (resp_status r) [200; 400; 405; 500]
  /\ (resp_status r = 400 \/ resp_status r = 500 -> method req = "POST")
  /\ (resp_status r = 405 -> method req <> "POST").
Proof.
  unfold agentProxy. intros E.
  destruct (String.eqb_spec (method req) "OPTIONS") as [Ho|Ho].
  - injection E as _ <-. simpl. repeat split; try tauto.
    + intros [H|H]; discriminate.
    + intros _. rewrite Ho. discriminate.
  - destruct (String.eqb_spec (method req) "POST") as [Hp|Hp]; cbn [negb] in E.
    + assert (H : resp_status r = 200 \/ resp_status r = 400
                  \/ resp_status r = 500).
      { revert t r E. apply every_bind; intros [|].
        - apply every_ret. simpl. tauto.
        - apply every_bind; intros q. apply every_bind; intros c.
          destruct (environ_get w "VERTEX_AGENT_ID") as [[|a e]|];
            try (apply every_ret; simpl; tauto).
          apply every_bind; intros _. apply every_bind; intros _.
          apply every_bind; intros _. apply every_bind; intros _.
          intros t r E.
          destruct (call_agent_200_or_500 json_loads w _ _ t r E); tauto. }
      repeat split.
      * simpl. destruct H as [ -> | [ -> | -> ] ]; tauto.
      * intros _. exact Hp.
      * intros H5. rewrite H5 in H. destruct H as [H|[H|H]]; discriminate.
    + injection E as _ <-. simpl. repeat split; try tauto.
      intros [H|H]; discriminate.
Qed.

Lemma status_is_one_of_four_witness :
  In 405 [200; 400; 405; 500]
  /\ method (mk_request "DELETE" None) <> "POST".
Proof.
  destruct (status_is_one_of_four sample_loads
              (sample_world None (Raise (mk_exn OtherException "unreachable")))
              (mk_request "DELETE" None) []
              (Response "Method Not Allowed" 405 []) eq_refl) as (H1 & _ & H3).
  split; [exact H1 | apply H3; reflexivity].
Defined.

(** * Further properties of the extraction *)

Section Wrapping.

Lemma length_append (a b : string) :
  String.length (a ++ b) = (String.length a + String.length b)%nat.
Proof. induction a as [|c a IH]; simpl; [reflexivity | now rewrite IH]. Qed.

Lemma absent_head (ch c : ascii) (s : string) :
  contains (String c s) (String ch "") = false ->
  Ascii.eqb ch c = false /\ contains s (String ch "") = false.
Proof.
  unfold contains. cbn [find_opt]. rewrite prefix_char.
  destruct (Ascii.eqb ch c); [discriminate|].
  destruct (find_opt (String ch "") s); [discriminate | auto].
Qed.

Lemma find_opt_skip (ch : ascii) (p r : string) :
  contains p (String ch "") = false ->
  find_opt (String ch "") (p ++ String ch r) = Some (String.length p).
Proof.
  induction p as [|c p IH]; intros H.
  - cbn [append find_opt]. now rewrite prefix_char, Ascii.eqb_refl.
  - apply absent_head in H as [E H].
    cbn [append find_opt]. rewrite prefix_char, E, (IH H). reflexivity.
Qed.

Lemma rfind_opt_none (ch : ascii) (t : string) :
  contains t (String ch "") = false -> rfind_opt (String ch "") t = None.
Proof.
  induction t as [|c t IH]; intros H.
  - reflexivity.
  - apply absent_head in H as [E H].
    cbn [rfind_opt]. now rewrite (IH H), prefix_char, E.
Qed.

Lemma rfind_opt_skip (ch : ascii) (a t : string) :
  contains t (String ch "") = false ->
  rfind_opt (String ch "") (a ++ String ch t) = Some (String.length a).
Proof.
  intros H. induction a as [|c a IH].
  - cbn [append rfind_opt].
    now rewrite (rfind_opt_none ch t H), prefix_char, Ascii.eqb_refl.
  - cbn [append rfind_opt]. now rewrite IH.
Qed.

Lemma substring_skip (p r : string) (n : nat) :
  String.substring (String.length p) n (p ++ r) = String.substring 0 n r.
Proof. induction p as [|c p IH]; [reflexivity | exact IH]. Qed.

Lemma substring_whole (x t : string) :
  String.substring 0 (String.length x) (x ++ t) = x.
Proof.
  induction x as [|c x IH]; simpl; [now destruct t | now rewrite IH].
Qed.

(** The span of an object text wrapped in prose that holds no brace on the
    outer sides is the object text. *)
Lemma brace_span_of_wrapped (p m t : string) :
  contains p "{" = false -> contains t "}" = false ->
  has_brace_span (p ++ "{" ++ m ++ "}" ++ t) = true
  /\ brace_span (p ++ "{" ++ m ++ "}" ++ t) = "{" ++ m ++ "}".
Proof.
  intros Hp Ht.
  set (s := p ++ "{" ++ m ++ "}" ++ t).
  set (i := String.length p).
  set (j := (String.length p + 1 + String.length m)%nat).
  assert (F : find s "{" = Z.of_nat i).
  { unfold find, s. change ("{" ++ m ++ "}" ++ t) with (String "{" (m ++ "}" ++ t)).
    now rewrite (find_opt_skip "{" p _ Hp). }
  assert (R : rfind s "}" = Z.of_nat j).
  { unfold rfind, s.
    replace (p ++ "{" ++ m ++ "}" ++ t) with ((p ++ "{" ++ m) ++ String "}" t)
      by (now rewrite !append_assoc).
    rewrite (rfind_opt_skip "}" _ t Ht). unfold j.
    rewrite !length_append. simpl. lia. }
  assert (L : (j < String.length s)%nat).
  { unfold s, j. rewrite !length_append. simpl. lia. }
  assert (Hij : (i < j)%nat) by (unfold i, j; lia).
  split.
  - unfold has_brace_span. rewrite F, R.
    destruct (Z.of_nat i =? -1) eqn:A; [lia|].
    destruct (Z.of_nat j =? -1) eqn:A'; [lia|].
    destruct (Z.of_nat j >? Z.of_nat i) eqn:A''; [reflexivity | lia].
  - unfold brace_span. rewrite F, R, (slice_substring s i j Hij L).
    unfold s, i. rewrite substring_skip.
    replace (j - String.length p + 1)%nat
      with (String.length ("{" ++ m ++ "}")).
    + replace ("{" ++ m ++ "}" ++ t) with (("{" ++ m ++ "}") ++ t)
        by (now rewrite !append_assoc).
      apply substring_whole.
    + unfold j. simpl. rewrite length_append. simpl. lia.
Qed.

Lemma find_opt_split (ch : ascii) (s : string) (i : nat) :
  find_opt (String ch "") s = Some i ->
  exists p r, s = p ++ String ch r /\ String.length p = i
              /\ contains p (String ch "") = false.
Proof.
  revert i; induction s as [|c s IH]; intros i H; [discriminate|].
  cbn [find_opt] in H. rewrite prefix_char in H.
  destruct (Ascii.eqb_spec ch c) as [->|N].
  - injection H as <-. exists "", s. repeat split.
  - destruct (find_opt (String ch "") s) as [n|] eqn:F; [|discriminate].
    injection H as <-. destruct (IH n eq_refl) as (p & r & -> & <- & Hp).
    exists (String c p), r. repeat split.
    unfold contains in *. cbn [find_opt]. rewrite prefix_char.
    apply Ascii.eqb_neq in N. rewrite N.
    now destruct (find_opt (String ch "") p).
Qed.

Lemma rfind_none_absent (ch : ascii) (s : string) :
  rfind_opt (String ch "") s = None -> contains s (String ch "") = false.
Proof.
  unfold contains. induction s as [|c s IH]; intros H; [reflexivity|].
  cbn [rfind_opt] in H. cbn [find_opt].
  destruct (rfind_opt (String ch "") s); [discriminate|].
  rewrite prefix_char in *.
  destruct (Ascii.eqb ch c); [discriminate|].
  specialize (IH eq_refl).
  now destruct (find_opt (String ch "") s).
Qed.

Lemma rfind_opt_split (ch : ascii) (s : string) (j : nat) :
  rfind_opt (String ch "") s = Some j ->
  exists a t, s = a ++ String ch t /\ String.length a = j
              /\ contains t (String ch "") = false.
Proof.
  revert j; induction s as [|c s IH]; intros j H; [discriminate|].
  cbn [rfind_opt] in H.
  destruct (rfind_opt (String ch "") s) as [n|] eqn:F.
  - injection H as <-. destruct (IH n eq_refl) as (a & t & -> & <- & Ht).
    exists (String c a), t. repeat split. exact Ht.
  - rewrite prefix_char in H.
    destruct (Ascii.eqb_spec ch c) as [->|N]; [|discriminate].
    injection H as <-. exists "", s. repeat split.
    now apply rfind_none_absent.
Qed.

(** Two ways to cut one string at a character, the second cut further
    right: the piece between the cuts. *)
Lemma two_cuts (c d : ascii) (p r a t : string) :
  p ++ String c r = a ++ String d t ->
  (String.length p < String.length a)%nat ->
  exists m, r = m ++ String d t.
Proof.
  revert a; induction p as [|x p IH]; intros a E L.
  - destruct a as [|y a]; [simpl in L; lia|].
    simpl in E. injection E as _ ->. now exists a.
  - destruct a as [|y a]; [simpl in L; lia|].
    simpl in E, L. injection E as _ E. apply (IH a E). lia.
Qed.

End Wrapping.

(** X10.  Prose around one object text is thrown away: when nothing before
    the object holds an opening brace and nothing after it holds a closing
    one, the extraction gives what the parser makes of the object text
    alone, whatever braces the object text has inside. *)
Theorem prose_around_object_discarded (json_loads : string -> result pyval)
    (p m t : string) :
  contains p "{" = false -> contains t "}" = false ->
  extract_agent_json json_loads (PStr (p ++ "{" ++ m ++ "}" ++ t))
  = json_loads ("{" ++ m ++ "}").
Proof.
  intros Hp Ht. destruct (brace_span_of_wrapped p m t Hp Ht) as [B S].
  rewrite extract_agent_json_str, B, S. reflexivity.
Qed.

Lemma prose_around_object_discarded_witness :
  extract_agent_json sample_loads (PStr "Sure! {} Thanks.")
  = Return (PDict []).
Proof.
  apply (prose_around_object_discarded sample_loads "Sure! " "" " Thanks.");
    reflexivity.
Defined.

(** Whenever the handler finds a span, the output string is some text
    without an opening brace, an opening brace, a middle, a closing brace
    and some text without a closing brace, and the span is the part from
    brace to brace. *)
Lemma span_is_brace_delimited (s : string) :
  has_brace_span s = true ->
  exists p m t,
    s = p ++ "{" ++ m ++ "}" ++ t
    /\ contains p "{" = false /\ contains t "}" = false
    /\ brace_span s = "{" ++ m ++ "}".
Proof.
  intros H. apply has_brace_span_true in H as (H1 & H2 & H3).
  unfold find, rfind in *.
  destruct (find_opt "{" s) as [i|] eqn:F; [|now elim H1].
  destruct (rfind_opt "}" s) as [j|] eqn:R; [|now elim H2].
  simpl in H3.
  destruct (find_opt_split "{" s i F) as (p & r & E & Li & Hp).
  destruct (rfind_opt_split "}" s j R) as (a & t & E' & Lj & Ht).
  assert (L : (String.length p < String.length a)%nat) by lia.
  rewrite E in E'. destruct (two_cuts _ _ p r a t E' L) as [m Em].
  exists p, m, t. subst r.
  change (String "{" (m ++ String "}" t)) with ("{" ++ m ++ "}" ++ t) in E.
  rewrite E. repeat split; try assumption.
  exact (proj2 (brace_span_of_wrapped p m t Hp Ht)).
Qed.

(** X11.  Whenever the extraction of an output string yields a value, the
    string is some text without an opening brace, an opening brace, a
    middle, a closing brace and some text without a closing brace, and the
    value is what the parser makes of the part from brace to brace: the
    parser is only ever given a text that starts with an opening brace and
    ends with a closing one. *)
Theorem extracted_from_brace_piece (json_loads : string -> result pyval)
    (s : string) (v : pyval) :
  extract_agent_json json_loads (PStr s) = Return v ->
  exists p m t,
    s = p ++ "{" ++ m ++ "}" ++ t
    /\ contains p "{" = false /\ contains t "}" = false
    /\ json_loads ("{" ++ m ++ "}") = Return v.
Proof.
  rewrite extract_agent_json_str. intros H.
  destruct (has_brace_span s) eqn:B; [|discriminate].
  destruct (span_is_brace_delimited s B) as (p & m & t & E & Hp & Ht & S).
  exists p, m, t. repeat split; try assumption.
  now rewrite S in H.
Qed.

Lemma extracted_from_brace_piece_witness :
  exists p m t,
    "a } b {} c" = p ++ "{" ++ m ++ "}" ++ t
    /\ contains p "{" = false /\ contains t "}" = false
    /\ sample_loads ("{" ++ m ++ "}") = Return (PDict []).
Proof.
  apply (extracted_from_brace_piece sample_loads "a } b {} c" (PDict [])).
  reflexivity.
Defined.

(** * Further properties of the prompt formatter *)


(** X12.  Whatever the query, the constraint and the session id are, line
    breaks and section words included, the prompt starts with [SESSION_ID: ]
    and ends with the template's REFLECT and LOOP sections, every line of
    which keeps its text and is pushed right by the same number of blanks,
    eight at most; so the two lines that bind the agent to a JSON answer with
    the four keys occur in every prompt. *)
Theorem prompt_frame (q c : pyval) (sid : string) :
  exists j body,
    (j <= 8)%nat
    /\ _format_agent_message q c sid
       = "SESSION_ID: " ++ body ++ NL
         ++ join_nl (map (indent_line j) prompt_tail_lines)
    /\ occurs_in json_only_instruction (_format_agent_message q c sid)
    /\ occurs_in json_keys_instruction (_format_agent_message q c sid).
Proof.
  unfold _format_agent_message. fold (constraint_text c). unfold dedent.
  destruct (template_split sid (py_str q) (constraint_text c))
    as (l0 & ls & -> & _).
  destruct (template_margin l0 ls) as (k & Hk & Hm).
  rewrite (dedent_lines_by_margin _ k Hm).
  rewrite (frame_after_margin k l0 ls Hk).
  eexists (8 - k)%nat, _. split; [lia|]. split; [reflexivity|].
  split.
  - do 3 apply occurs_in_app_l.
    apply occurs_in_join with (l := indent_line (8 - k) json_only_instruction).
    + apply in_map. unfold prompt_tail_lines, json_only_instruction.
      simpl. tauto.
    + apply occurs_in_app_l, occurs_in_refl.
  - do 3 apply occurs_in_app_l.
    apply occurs_in_join with (l := indent_line (8 - k) json_keys_instruction).
    + apply in_map. unfold prompt_tail_lines, json_keys_instruction.
      simpl. tauto.
    + apply occurs_in_app_l, occurs_in_refl.
Qed.

(** X13.  For a session id that holds no line break, as the text of a UUID
    does, the first line of the prompt is [SESSION_ID: ] followed by the
    session id, whatever the query and the constraint are: the prompt names
    the same id that the envelope of the POST carries. *)
Theorem session_line_heads_prompt (q c : pyval) (sid : string) :
  has_newline sid = false ->
  exists rest,
    _format_agent_message q c sid = "SESSION_ID: " ++ sid ++ NL ++ rest.
Proof.
  intros Hs. unfold _format_agent_message. fold (constraint_text c).
  unfold dedent.
  destruct (template_split sid (py_str q) (constraint_text c))
    as (l0 & ls & -> & Hl0).
  rewrite (Hl0 Hs).
  destruct (template_margin sid ls) as (k & Hk & Hm).
  rewrite (dedent_lines_by_margin _ k Hm).
  rewrite (frame_after_margin k sid ls Hk).
  destruct (map (remove_margin (blanks k)) (map whitespace_only_sub ls))
    as [|x xs]; cbn [join_rest].
  - eexists. rewrite append_nil_r. reflexivity.
  - eexists. rewrite !append_assoc. reflexivity.
Qed.

Lemma session_line_heads_prompt_witness :
  exists rest,
    _format_agent_message (PStr ("two" ++ NL ++ "lines")) (PInt 0)
      "0b5c1f3e-7a11-4c58-9d0e-2f6a4b8c9d10"
    = "SESSION_ID: " ++ "0b5c1f3e-7a11-4c58-9d0e-2f6a4b8c9d10" ++ NL ++ rest.
Proof.
  apply session_line_heads_prompt. reflexivity.
Defined.
